(** * l5kit.dataset.ego : EgoDataset

    A shallow embedding of [l5kit/dataset/ego.py] and the properties of its
    index resolution, Frenet target conversion and scene extraction.

    Python integers are [Z].  Exceptions are values of [exn] carried by the
    [result] monad.  The record arrays of the chunked store (scenes, frames,
    agents, traffic-light faces) live in a heap of arrays addressed by
    references, so that slicing, [.copy()] and the in-place [-=] of
    [get_scene_dataset] keep their aliasing.  Floating-point coordinates are
    exact rationals: rounding plays no part in what is proved here. *)

From Stdlib Require Import ZArith QArith Lia Sorted.
From stdpp Require Import base option list gmap.
Close Scope Q_scope.
Local Open Scope Z_scope.

(** ** Exceptions and the error monad *)

Inductive exn :=
| ValueError
| IndexError
| AssertionError
| OverflowError
| TypeError
| AttributeError
| LinAlgError
| RuntimeError.

Inductive result (A : Type) :=
| Ok (a : A)
| Err (e : exn).
Arguments Ok {A} a.
Arguments Err {A} e.

#[export] Instance result_ret : MRet result := fun A a => Ok a.
#[export] Instance result_bind : MBind result := fun A B f m =>
  match m with
  | Ok a => f a
  | Err e => Err e
  end.

Definition is_ok {A} (r : result A) : bool :=
  match r with Ok _ => true | Err _ => false end.

(** [assert c, e] of Python, raising [e] when [c] is false. *)
Definition assert (c : bool) (e : exn) : result unit :=
  if c then Ok tt else Err e.

(** [mapM] over a list: the list comprehension of a fallible call. *)
Fixpoint traverse {A B} (f : A -> result B) (l : list A) : result (list B) :=
  match l with
  | [] => Ok []
  | x :: l' => y ← f x; ys ← traverse f l'; Ok (y :: ys)
  end.

(** ** Python sequences *)

Module Py.

Definition len {A} (l : list A) : Z := Z.of_nat (length l).

(** [l[i]] with end-relative negative indices; [IndexError] outside
    [-len(l) <= i < len(l)]. *)
Definition getitem {A} (l : list A) (i : Z) : result A :=
  let i' := if i <? 0 then i + len l else i in
  if (i' <? 0) || (len l <=? i') then Err IndexError
  else match l !! Z.to_nat i' with
       | Some x => Ok x
       | None => Err IndexError
       end.

(** A slice bound, as [slice.indices] normalises it (step 1). *)
Definition clamp (n i : Z) : Z :=
  if i <? 0 then Z.max 0 (i + n) else Z.min i n.

(** [l[lo:hi]]. *)
Definition slice {A} (l : list A) (lo hi : Z) : list A :=
  let lo' := clamp (len l) lo in
  let hi' := clamp (len l) hi in
  take (Z.to_nat (hi' - lo')) (drop (Z.to_nat lo') l).

(** [bisect.bisect_right(a, x)]:
<<
    lo, hi = 0, len(a)
    while lo < hi:
        mid = (lo + hi) // 2
        if x < a[mid]: hi = mid
        else: lo = mid + 1
    return lo
>>
    The loop runs on fuel; [len(a)] iterations always suffice, since
    [hi - lo] shrinks at every turn (lemma [bisect_loop_fuel]). *)
Fixpoint bisect_loop (fuel : nat) (a : list Z) (x lo hi : Z) : Z :=
  match fuel with
  | O => lo
  | S fuel' =>
      if lo <? hi then
        let mid := (lo + hi) `div` 2 in
        if x <? default 0 (a !! Z.to_nat mid)
        then bisect_loop fuel' a x lo mid
        else bisect_loop fuel' a x (mid + 1) hi
      else lo
  end.

Definition bisect_right (a : list Z) (x : Z) : Z :=
  bisect_loop (length a) a x 0 (len a).

(** [range(a, b)] / [np.arange(a, b)] on integers. *)
Definition arange (a b : Z) : list Z :=
  (fun i : nat => a + Z.of_nat i) <$> seq 0 (Z.to_nat (b - a)).

End Py.

(** ** Fixed-width integers of the record arrays *)

Definition int64 (z : Z) : Prop := - 2 ^ 63 <= z < 2 ^ 63.

Definition int64b (z : Z) : bool := (- 2 ^ 63 <=? z) && (z <? 2 ^ 63).

(** Two's-complement wrap-around of [np.int64] arithmetic. *)
Definition wrap64 (z : Z) : Z := (z + 2 ^ 63) `mod` 2 ^ 64 - 2 ^ 63.

(** [np.int64(x)] on a Python int: the value, or [OverflowError] when it
    does not fit. *)
Definition np_int64 (x : Z) : result Z :=
  if int64b x then Ok x else Err OverflowError.

(** ** The fragment of numpy used by [get_frame] *)

Module Np.

(** Arrays of rank 0, 1 and 2. *)
Inductive ndarray :=
| Num (x : Q)
| Vec (v : list Q)
| Mat (m : list (list Q)).

Definition ncols (m : list (list Q)) : nat := length (default [] (head m)).

Definition shape (a : ndarray) : list nat :=
  match a with
  | Num _ => []
  | Vec v => [length v]
  | Mat m => [length m; ncols m]
  end.

Definition rank (a : ndarray) : nat := length (shape a).

(** Broadcasting sees a vector as one row and a scalar as one cell. *)
Definition as_rows (a : ndarray) : list (list Q) :=
  match a with
  | Num x => [[x]]
  | Vec v => [v]
  | Mat m => m
  end.

Definition of_rows (rk : nat) (rows : list (list Q)) : ndarray :=
  match rk with
  | O => Num (default 0%Q (head rows ≫= head))
  | S O => Vec (default [] (head rows))
  | _ => Mat rows
  end.

(** The broadcast of two extents: equal, or one of them is 1. *)
Definition bdim (n m : nat) : option nat :=
  if (n =? m)%nat then Some n
  else if (n =? 1)%nat then Some m
  else if (m =? 1)%nat then Some n
  else None.

(** Element [i] of an axis that is stretched when its extent is 1. *)
Definition pick {A} (d : A) (l : list A) (i : nat) : A :=
  nth (if (length l =? 1)%nat then O else i) l d.

Definition elt (rows : list (list Q)) (i j : nat) : Q :=
  pick 0%Q (pick [] rows i) j.

(** An elementwise binary operator under broadcasting;
    [ValueError] when the shapes cannot be broadcast together. *)
Definition broadcast (f : Q -> Q -> Q) (a b : ndarray) : result ndarray :=
  let ra := as_rows a in
  let rb := as_rows b in
  match bdim (length ra) (length rb), bdim (ncols ra) (ncols rb) with
  | Some r, Some c =>
      Ok (of_rows (Nat.max (rank a) (rank b))
            ((fun i => (fun j => f (elt ra i j) (elt rb i j)) <$> seq 0 c)
               <$> seq 0 r))
  | _, _ => Err ValueError
  end.

(** [a + b]. *)
Definition add (a b : ndarray) : result ndarray := broadcast Qplus a b.

(** [a += b] and [a -= b]: the broadcast result has to fit the shape of
    the left operand, which is updated in place. *)
Definition inplace (f : Q -> Q -> Q) (a b : ndarray) : result ndarray :=
  r ← broadcast f a b;
  if bool_decide (shape r = shape a) then Ok r else Err ValueError.

Definition iadd (a b : ndarray) : result ndarray := inplace Qplus a b.
Definition isub (a b : ndarray) : result ndarray := inplace Qminus a b.

Definition dot (u v : list Q) : Q :=
  foldr Qplus 0%Q (zip_with Qmult u v).

Definition columns (m : list (list Q)) : list (list Q) :=
  (fun j => (fun row => nth j row 0%Q) <$> m) <$> seq 0 (ncols m).

(** [np.matmul(a, b)] on ranks 1 and 2; [ValueError] on a mismatch of
    the contracted extents and on scalars. *)
Definition matmul (a b : ndarray) : result ndarray :=
  match a, b with
  | Mat x, Mat y =>
      if (ncols x =? length y)%nat
      then Ok (Mat ((fun row => dot row <$> columns y) <$> x))
      else Err ValueError
  | Mat x, Vec v =>
      if (ncols x =? length v)%nat
      then Ok (Vec ((fun row => dot row v) <$> x))
      else Err ValueError
  | Vec u, Mat y =>
      if (length u =? length y)%nat
      then Ok (Vec (dot u <$> columns y))
      else Err ValueError
  | Vec u, Vec v =>
      if (length u =? length v)%nat
      then Ok (Num (dot u v))
      else Err ValueError
  | _, _ => Err ValueError
  end.

(** [a[i, j]]. *)
Definition index2 (a : ndarray) (i j : Z) : result Q :=
  match a with
  | Mat m => row ← Py.getitem m i; Py.getitem row j
  | _ => Err IndexError
  end.

(** [a[r0:r1, c0:c1]]. *)
Definition slice2 (a : ndarray) (r0 r1 c0 c1 : Z) : result ndarray :=
  match a with
  | Mat m => Ok (Mat ((fun row => Py.slice row c0 c1) <$> Py.slice m r0 r1))
  | _ => Err IndexError
  end.

(** Iteration over the first axis, as [zip] and [for] do. *)
Definition iter (a : ndarray) : result (list ndarray) :=
  match a with
  | Num _ => Err TypeError
  | Vec v => Ok (Num <$> v)
  | Mat m => Ok (Vec <$> m)
  end.

(** [np.array([...])] of a list of pairs: one row per pair. *)
Definition array_of_pairs (l : list (Q * Q)) : ndarray :=
  match l with
  | [] => Vec []
  | _ => Mat ((fun p => [p.1; p.2]) <$> l)
  end.

(** [image.transpose(2, 0, 1)]: channel-last to channel-first. *)
Definition transpose_201 (img : list (list (list Q))) : list (list (list Q)) :=
  let channels :=
    match img with
    | (px :: _) :: _ => length px
    | _ => O
    end in
  (fun c : nat =>
     (fun row : list (list Q) => (fun px : list Q => nth c px 0%Q) <$> row)
       <$> img) <$> seq 0 channels.

(** [np.linalg.inv] on 2x2 and 3x3 matrices, by the adjugate;
    [LinAlgError] on a singular matrix (and on every other shape, which
    the instances below do not use). *)
Definition linalg_inv (a : ndarray) : result ndarray :=
  match a with
  | Mat [[a; b]; [c; d]] =>
      let det := (a * d - b * c)%Q in
      if Qeq_bool det 0%Q then Err LinAlgError
      else Ok (Mat [[d / det; - b / det]; [- c / det; a / det]])%Q
  | Mat [[a; b; c]; [d; e; f]; [g; h; i]] =>
      let det := (a * (e * i - f * h) - b * (d * i - f * g)
                  + c * (d * h - e * g))%Q in
      if Qeq_bool det 0%Q then Err LinAlgError
      else Ok (Mat
        [[(e * i - f * h) / det; (c * h - b * i) / det; (b * f - c * e) / det];
         [(f * g - d * i) / det; (a * i - c * g) / det; (c * d - a * f) / det];
         [(d * h - e * g) / det; (b * g - a * h) / det; (a * e - b * d) / det]])%Q
  | _ => Err LinAlgError
  end.

End Np.
Export Np.

(** ** Records of the chunked store *)

(** A scene owns the half-open interval of its frames.  [scene_rest]
    stands for the fields of the record this module never reads. *)
Record scene := Scene {
  frame_index_interval : Z * Z;
  scene_rest : list Z;
}.

(** A frame: its timestamp, the intervals of its agents and of its
    traffic-light faces, and the ego pose. *)
Record frame := Frame {
  timestamp : Z;
  agent_index_interval : Z * Z;
  traffic_light_faces_index_interval : Z * Z;
  ego_pose : list Q;
}.

(** The [data] dict returned by the sample generator. *)
Record Sample := {
  data_image : list (list (list Q));
  data_target_positions : ndarray;
  data_target_yaws : ndarray;
  data_target_availabilities : ndarray;
  data_history_positions : ndarray;
  data_history_yaws : ndarray;
  data_history_availabilities : ndarray;
  data_world_to_image : ndarray;
  data_ego_center : ndarray;
  data_centroid : ndarray;
  data_yaw : Q;
  data_extent : ndarray;
}.

(** The dict returned by [get_frame]. *)
Record Example := {
  out_image : list (list (list Q));
  out_target_positions : ndarray;
  out_target_yaws : ndarray;
  out_target_availabilities : ndarray;
  out_history_positions : ndarray;
  out_history_yaws : ndarray;
  out_history_availabilities : ndarray;
  out_world_to_image : ndarray;
  out_track_id : Z;
  out_timestamp : Z;
  out_centroid : ndarray;
  out_yaw : Q;
  out_extent : ndarray;
}.

(** ** Configuration *)

Record RasterParams := {
  raster_size : Z * Z;
  pixel_size : list Q;
  ego_center : list Q;
  filter_agents_threshold : Q;
}.

Record ModelParams := {
  history_num_frames : Z;
  history_step_size : Z;
  future_num_frames : Z;
  future_step_size : Z;
}.

(** [use_frenet] is read with [cfg.get("use_frenet", True)]: the key may
    be missing. *)
Record Cfg := {
  raster_params : RasterParams;
  model_params : ModelParams;
  use_frenet : option bool;
}.

(** ** External collaborators

    The agent and traffic-light-face records, the rasterizer and the
    perturbation are opaque here.  [generate_agent_sample] (module
    [sampling]) and the route-Frenet primitive of the rasterizer are code
    the dataset calls; [np_inverse] is the attribute [np.inverse] that
    [get_frame] calls, [np_arctan2] is [np.arctan2]. *)
Class Collaborators := {
  agent : Type;
  tl_face : Type;
  Rasterizer : Type;
  Perturbation : Type;
  generate_agent_sample :
    RasterParams -> ModelParams -> Rasterizer -> option Perturbation ->
    Z -> list frame -> list agent -> list tl_face -> option Z -> result Sample;
  route_frenet_coordinates_from_xy_heading :
    Rasterizer -> ndarray -> ndarray -> result ((Q * Q) * Q);
  np_inverse : ndarray -> result ndarray;
  np_arctan2 : Q -> Q -> Q;
}.

(** ** The heap of record arrays *)

Inductive array (A T : Type) :=
| Scenes (l : list scene)
| Frames (l : list frame)
| Agents (l : list A)
| TlFaces (l : list T).
Arguments Scenes {A T} l.
Arguments Frames {A T} l.
Arguments Agents {A T} l.
Arguments TlFaces {A T} l.

Abbreviation ref := positive.

Abbreviation heap := (gmap ref (array agent tl_face)).

Section Dataset.
Context `{Collaborators}.

(** [ChunkedDataset]: four references to record arrays. *)
Record ChunkedDataset := {
  scenes : ref;
  frames : ref;
  agents : ref;
  tl_faces : ref;
}.

Definition scenes_of (h : heap) (r : ref) : list scene :=
  match h !! r with Some (Scenes l) => l | _ => [] end.

Definition frames_of (h : heap) (r : ref) : list frame :=
  match h !! r with Some (Frames l) => l | _ => [] end.

Definition agents_of (h : heap) (r : ref) : list agent :=
  match h !! r with Some (Agents l) => l | _ => [] end.

Definition tl_faces_of (h : heap) (r : ref) : list tl_face :=
  match h !! r with Some (TlFaces l) => l | _ => [] end.

(** [.copy()]: the array is stored under a reference no array has yet. *)
Definition copy (h : heap) (a : array agent tl_face) : ref * heap :=
  let r := fresh (dom h) in (r, <[r := a]> h).

(** ** EgoDataset *)

Record EgoDataset := {
  cfg : Cfg;
  dataset : ChunkedDataset;
  rasterizer : Rasterizer;
  perturbation : option Perturbation;
}.

(** [self.cumulative_sizes]: column 1 of the scenes' frame intervals. *)
Definition cumulative_sizes (h : heap) (self : EgoDataset) : list Z :=
  (fun s => (frame_index_interval s).2) <$> scenes_of h (scenes (dataset self)).

(** [self.sample_function]: the partial application built by [__init__]. *)
Definition sample_function (self : EgoDataset) :
    Z -> list frame -> list agent -> list tl_face -> option Z -> result Sample :=
  generate_agent_sample (raster_params (cfg self)) (model_params (cfg self))
    (rasterizer self) (perturbation self).

Definition __len__ (h : heap) (self : EgoDataset) : Z :=
  Py.len (frames_of h (frames (dataset self))).

(** The nested function of [get_frame]. *)
Definition world_from_image (image_to_world image_coords : ndarray) : result ndarray :=
  rot ← slice2 image_to_world 0 2 0 2;
  p ← matmul rot image_coords;
  t ← slice2 image_to_world 0 2 2 3;
  add p t.

(** The body of the [use_frenet] branch of [get_frame]: the new
    [(target_positions, target_yaws)].  The route-Frenet primitive gets
    the zipped position and heading as its two arguments. *)
Definition frenet_targets (self : EgoDataset) (data : Sample)
    (target_positions target_yaws : ndarray) : result (ndarray * ndarray) :=
  image_to_world ← np_inverse (data_world_to_image data);
  _ ← assert (bool_decide (shape image_to_world = [3; 3]%nat)) AssertionError;
  target_positions_geomap ← world_from_image image_to_world target_positions;
  m01 ← index2 image_to_world 0 1;
  m00 ← index2 image_to_world 0 0;
  let initial_ego_yaw := np_arctan2 m01 m00 in
  target_yaws ← iadd target_yaws (Num initial_ego_yaw);
  positions ← iter target_positions_geomap;
  yaws ← iter target_yaws;
  target_frenet_coordinates ←
    traverse (fun xyh : ndarray * ndarray =>
                route_frenet_coordinates_from_xy_heading (rasterizer self) xyh.1 xyh.2)
             (zip positions yaws);
  let target_frenet_positions := array_of_pairs (fst <$> target_frenet_coordinates) in
  let target_relative_headings := Vec (snd <$> target_frenet_coordinates) in
  ego_xy ← world_from_image image_to_world (data_ego_center data);
  ego ← route_frenet_coordinates_from_xy_heading (rasterizer self) ego_xy (Num 0%Q);
  let ego_in_frenet := ego.1 in
  target_frenet_positions ←
    isub target_frenet_positions (Mat [[ego_in_frenet.1]; [0%Q]]);
  Ok (target_frenet_positions, target_relative_headings).

Definition get_frame (h : heap) (self : EgoDataset)
    (scene_index state_index : Z) (track_id : option Z) : result Example :=
  sc ← Py.getitem (scenes_of h (scenes (dataset self))) scene_index;
  let frame_interval := frame_index_interval sc in
  let frames_ :=
    Py.slice (frames_of h (frames (dataset self))) frame_interval.1 frame_interval.2 in
  data ← sample_function self state_index frames_
           (agents_of h (agents (dataset self)))
           (tl_faces_of h (tl_faces (dataset self))) track_id;
  let image := transpose_201 (data_image data) in
  let target_positions := data_target_positions data in
  let target_yaws := data_target_yaws data in
  let history_positions := data_history_positions data in
  let history_yaws := data_history_yaws data in
  targets ←
    (if default true (use_frenet (cfg self))
     then frenet_targets self data target_positions target_yaws
     else Ok (target_positions, target_yaws));
  fr ← Py.getitem (frames_of h (frames (dataset self))) (frame_interval.1 + state_index);
  track_id ← np_int64 (match track_id with None => -1 | Some t => t end);
  Ok {| out_image := image;
        out_target_positions := targets.1;
        out_target_yaws := targets.2;
        out_target_availabilities := data_target_availabilities data;
        out_history_positions := history_positions;
        out_history_yaws := history_yaws;
        out_history_availabilities := data_history_availabilities data;
        out_world_to_image := data_world_to_image data;
        out_track_id := track_id;
        out_timestamp := timestamp fr;
        out_centroid := data_centroid data;
        out_yaw := data_yaw data;
        out_extent := data_extent data |}.

(** Lines 142-152 of [__getitem__]: the flat index becomes
    [(scene_index, state_index)]. *)
Definition resolve (h : heap) (self : EgoDataset) (index : Z) : result (Z * Z) :=
  index ← (if index <? 0
           then if - index >? __len__ h self then Err ValueError
                else Ok (__len__ h self + index)
           else Ok index);
  let scene_index := Py.bisect_right (cumulative_sizes h self) index in
  state_index ← (if scene_index =? 0 then Ok index
                 else c ← Py.getitem (cumulative_sizes h self) (scene_index - 1);
                      Ok (index - c));
  Ok (scene_index, state_index).

Definition __getitem__ (h : heap) (self : EgoDataset) (index : Z) : result Example :=
  si ← resolve h self index;
  get_frame h self si.1 si.2 None.

(** The in-place [-=] of an [int64] interval field. *)
Definition isub_interval (iv : Z * Z) (d : Z) : Z * Z :=
  (wrap64 (iv.1 - d), wrap64 (iv.2 - d)).

Definition rebase_agents (d : Z) (f : frame) : frame :=
  Frame (timestamp f) (isub_interval (agent_index_interval f) d)
        (traffic_light_faces_index_interval f) (ego_pose f).

Definition rebase_tl_faces (d : Z) (f : frame) : frame :=
  Frame (timestamp f) (agent_index_interval f)
        (isub_interval (traffic_light_faces_index_interval f) d) (ego_pose f).

Definition rebase_frames (d : Z) (s : scene) : scene :=
  Scene (isub_interval (frame_index_interval s) d) (scene_rest s).

Definition get_scene_dataset (h : heap) (self : EgoDataset) (scene_index : Z)
    : result (EgoDataset * heap) :=
  let src := dataset self in
  let '(scenes', h) :=
    copy h (Scenes (Py.slice (scenes_of h (scenes src)) scene_index (scene_index + 1))) in
  sc ← Py.getitem (scenes_of h scenes') 0;
  let frame_interval := frame_index_interval sc in
  let '(frames', h) :=
    copy h (Frames (Py.slice (frames_of h (frames src)) frame_interval.1 frame_interval.2)) in
  first ← Py.getitem (frames_of h frames') 0;
  let agents_start_index := (agent_index_interval first).1 in
  last ← Py.getitem (frames_of h frames') (-1);
  let agents_end_index := (agent_index_interval last).2 in
  let '(agents', h) :=
    copy h (Agents (Py.slice (agents_of h (agents src)) agents_start_index agents_end_index)) in
  first ← Py.getitem (frames_of h frames') 0;
  let tl_start_index := (traffic_light_faces_index_interval first).1 in
  last ← Py.getitem (frames_of h frames') (-1);
  let tl_end_index := (traffic_light_faces_index_interval last).2 in
  let '(tl_faces', h) :=
    copy h (TlFaces (Py.slice (tl_faces_of h (tl_faces src)) tl_start_index tl_end_index)) in
  let h := <[frames' := Frames (rebase_agents agents_start_index <$> frames_of h frames')]> h in
  let h := <[frames' := Frames (rebase_tl_faces tl_start_index <$> frames_of h frames')]> h in
  let h := <[scenes' := Scenes (rebase_frames frame_interval.1 <$> scenes_of h scenes')]> h in
  let dataset' := {| scenes := scenes'; frames := frames';
                     agents := agents'; tl_faces := tl_faces' |} in
  Ok ({| cfg := cfg self; dataset := dataset';
         rasterizer := rasterizer self; perturbation := perturbation self |}, h).

Definition get_scene_indices (h : heap) (self : EgoDataset) (scene_idx : Z)
    : result (list Z) :=
  let scenes_ := scenes_of h (scenes (dataset self)) in
  _ ← assert (scene_idx <? Py.len scenes_) AssertionError;
  sc ← Py.getitem scenes_ scene_idx;
  Ok (Py.arange (frame_index_interval sc).1 (frame_index_interval sc).2).

Definition get_frame_indices (h : heap) (self : EgoDataset) (frame_idx : Z)
    : result (list Z) :=
  let frames_ := frames_of h (frames (dataset self)) in
  _ ← assert (frame_idx <? Py.len frames_) AssertionError;
  i ← np_int64 frame_idx;
  Ok [i].

End Dataset.

(** ** Statements of the specification *)

(** The flat index of an in-scene offset, rebuilt from the cumulative
    sizes as the specification words it. *)
Definition flat_index (cumulative : list Z) (si : Z * Z) : result Z :=
  if si.1 =? 0 then Ok si.2
  else c ← Py.getitem cumulative (si.1 - 1); Ok (c + si.2).

(** First flat index of scene [k]: 0 for the first scene, the cumulative
    size of the scene before it otherwise. *)
Definition scene_start (cumulative : list Z) (k : nat) : Z :=
  match k with
  | O => 0
  | S k' => default 0 (cumulative !! k')
  end.

(** Scene intervals tile the frame sequence: scene [k] starts where scene
    [k - 1] ends, the first one at 0. *)
Definition scenes_contiguous (l : list scene) : Prop :=
  forall (k : nat) sc,
    l !! k = Some sc ->
    (frame_index_interval sc).1
    = scene_start ((fun s => (frame_index_interval s).2) <$> l) k.

(** Successive intervals without gaps: each one is ordered and ends where
    the next one starts. *)
Fixpoint chained (ivs : list (Z * Z)) : bool :=
  match ivs with
  | [] => true
  | iv :: rest =>
      (iv.1 <=? iv.2)
      && match rest with
         | [] => true
         | iv' :: _ => iv.2 =? iv'.1
         end
      && chained rest
  end.

(** The contiguity precondition of scene extraction on the intervals of
    one scene's frames: a chain that starts at a valid position. *)
Definition contiguous_intervals (ivs : list (Z * Z)) : bool :=
  match ivs with
  | [] => true
  | iv :: _ => 0 <=? iv.1
  end && chained ivs.

(** The interval fields of the record arrays hold [int64] values. *)
Definition interval_typed (iv : Z * Z) : bool := int64b iv.1 && int64b iv.2.

Definition frame_typed (f : frame) : bool :=
  interval_typed (agent_index_interval f)
  && interval_typed (traffic_light_faces_index_interval f).

Definition scene_typed (s : scene) : bool :=
  interval_typed (frame_index_interval s).

(** What a frame gives access to: its own fields and the agents and
    traffic-light faces inside its two intervals. *)
Definition frame_view {A T} (agents : list A) (tl_faces : list T) (f : frame)
    : Z * list Q * list A * list T :=
  (timestamp f, ego_pose f,
   Py.slice agents (agent_index_interval f).1 (agent_index_interval f).2,
   Py.slice tl_faces (traffic_light_faces_index_interval f).1
            (traffic_light_faces_index_interval f).2).

(** The sample generator reaches the agent and traffic-light-face arrays
    only through the intervals of the frames it is given. *)
Definition sample_local `{Collaborators} : Prop :=
  forall rp mp rast pert (state_index : Z) (track_id : option Z)
         (frames1 frames2 : list frame)
         (agents1 agents2 : list agent) (tl1 tl2 : list tl_face),
    frame_view agents1 tl1 <$> frames1 = frame_view agents2 tl2 <$> frames2 ->
    generate_agent_sample rp mp rast pert state_index frames1 agents1 tl1 track_id
    = generate_agent_sample rp mp rast pert state_index frames2 agents2 tl2 track_id.

(** The four references of a dataset hold arrays of the heap. *)
Definition allocated `{Collaborators} (h : heap) (d : ChunkedDataset) : Prop :=
  scenes d ∈ dom h /\ frames d ∈ dom h /\ agents d ∈ dom h /\ tl_faces d ∈ dom h.

(** The track id of an example: -1 stands for the ego. *)
Definition track_id_or_ego (track_id : option Z) : Z :=
  match track_id with
  | None => -1
  | Some t => t
  end.

(** The references held by a dataset. *)
Definition refs (d : ChunkedDataset) : list ref :=
  [scenes d; frames d; agents d; tl_faces d].

(** A frame with its two intervals moved down by [da] and [dt]. *)
Definition shift_frame (da dt : Z) (f : frame) : frame :=
  Frame (timestamp f)
        ((agent_index_interval f).1 - da, (agent_index_interval f).2 - da)
        ((traffic_light_faces_index_interval f).1 - dt,
         (traffic_light_faces_index_interval f).2 - dt)
        (ego_pose f).

(** The frames of one scene with their intervals relative to where the
    intervals of the first frame start. *)
Definition zero_based (window : list frame) : list frame :=
  match window with
  | [] => []
  | f0 :: _ =>
      shift_frame (agent_index_interval f0).1
                  (traffic_light_faces_index_interval f0).1 <$> window
  end.

(** Scene intervals laid end to end from position [a]: each one is
    ordered and starts where the one before it ends. *)
Fixpoint tiles (a : Z) (l : list scene) : Prop :=
  match l with
  | [] => True
  | sc :: l' =>
      (frame_index_interval sc).1 = a /\
      (frame_index_interval sc).1 <= (frame_index_interval sc).2 /\
      tiles (frame_index_interval sc).2 l'
  end.

(** An image of [hgt] rows of [wid] pixels of [ch] channels. *)
Definition rectangular (hgt wid ch : nat) (img : list (list (list Q))) : Prop :=
  length img = hgt /\
  Forall (fun row => length row = wid /\ Forall (fun px => length px = ch) row) img.

(** ** A two-scene store

    Two scenes of 3 and 2 frames (cumulative sizes [3; 5]), 8 agents and
    4 traffic-light faces, with a sample generator that reads the frame at
    [state_index] and what its intervals select.  The generator returns two
    future targets, [(1, 2)] and [(3, 4)], an ego center [(5, 7)] and the
    raster transform it is built with. *)

Definition identity3 : ndarray :=
  Mat [[1; 0; 0]; [0; 1; 0]; [0; 0; 1]]%Q.

Definition identity2 : ndarray :=
  Mat [[1; 0]; [0; 1]]%Q.

Definition zero3 : ndarray :=
  Mat [[0; 0; 0]; [0; 0; 0]; [0; 0; 0]]%Q.

Definition toy_sample (world_to_image : ndarray)
    (rp : RasterParams) (mp : ModelParams) (rast : unit)
    (pert : option unit) (state_index : Z) (frames_ : list frame)
    (agents_ : list Z) (tl_faces_ : list Z) (track_id : option Z) : result Sample :=
  v ← Py.getitem (frame_view agents_ tl_faces_ <$> frames_) state_index;
  Ok {| data_image := [[[inject_Z v.1.1.1; 0%Q]]];
        data_target_positions := Mat [[1; 2]; [3; 4]]%Q;
        data_target_yaws := Vec [0; 0]%Q;
        data_target_availabilities := Vec [1; 1]%Q;
        data_history_positions := Mat [[0; 0]]%Q;
        data_history_yaws := Vec [0%Q];
        data_history_availabilities := Vec [1%Q];
        data_world_to_image := world_to_image;
        data_ego_center := Mat [[5]; [7]]%Q;
        data_centroid := Vec (inject_Z <$> v.1.2);
        data_yaw := 0%Q;
        data_extent := Vec (inject_Z <$> v.2) |}.

(** The identity-preserving route-Frenet primitive: [(x, y)] is its own
    [(s, d)] and the heading is returned as it is given. *)
Definition identity_frenet (rast : unit) (xy heading : ndarray)
    : result ((Q * Q) * Q) :=
  match concat (as_rows xy), heading with
  | [x; y], Num hd => Ok ((x, y), hd)
  | _, _ => Err ValueError
  end.

(** Collaborators over integer-coded agents and faces, for a given
    meaning of [np.inverse] and a given raster transform.  [arctan2] is
    only taken on the positive x axis, where it is 0. *)
Definition toy_with (inverse : ndarray -> result ndarray)
    (world_to_image : ndarray) : Collaborators := {|
  agent := Z;
  tl_face := Z;
  Rasterizer := unit;
  Perturbation := unit;
  generate_agent_sample := toy_sample world_to_image;
  route_frenet_coordinates_from_xy_heading := identity_frenet;
  np_inverse := inverse;
  np_arctan2 := fun _ _ => 0%Q;
|}.

(** [np.linalg.inv] standing where the source says [np.inverse], on the
    identity raster transform. *)
#[export] Instance toy : Collaborators := toy_with linalg_inv identity3.

(** numpy as it is: the module has no attribute [inverse], so that
    evaluating [np.inverse] raises [AttributeError]. *)
Definition numpy_as_is : Collaborators :=
  toy_with (fun _ => Err AttributeError) identity3.

Definition toy_scenes : list scene :=
  [Scene (0, 3) [7]; Scene (3, 5) [8]].

Definition toy_frames : list frame :=
  [Frame 100 (0, 2) (0, 1) []; Frame 101 (2, 3) (1, 1) []; Frame 102 (3, 5) (1, 2) [];
   Frame 103 (5, 6) (2, 4) []; Frame 104 (6, 8) (4, 4) []].

Definition toy_heap : gmap positive (array Z Z) :=
  <[4%positive := TlFaces [20; 21; 22; 23]]>
    (<[3%positive := Agents [10; 11; 12; 13; 14; 15; 16; 17]]>
       (<[2%positive := Frames toy_frames]>
          (<[1%positive := Scenes toy_scenes]> ∅))).

Definition toy_store : ChunkedDataset :=
  {| scenes := 1%positive; frames := 2%positive;
     agents := 3%positive; tl_faces := 4%positive |}.

Definition toy_cfg (frenet : option bool) : Cfg :=
  {| raster_params := {| raster_size := (224, 224); pixel_size := [1#2; 1#2]%Q;
                         ego_center := [1#4; 1#2]%Q;
                         filter_agents_threshold := (1#2)%Q |};
     model_params := {| history_num_frames := 1; history_step_size := 1;
                        future_num_frames := 2; future_step_size := 1 |};
     use_frenet := frenet |}.

Definition toy_dataset_with (inverse : ndarray -> result ndarray)
    (world_to_image : ndarray) (frenet : option bool)
    : @EgoDataset (toy_with inverse world_to_image) :=
  @Build_EgoDataset (toy_with inverse world_to_image)
    (toy_cfg frenet) toy_store tt None.

Definition toy_dataset (frenet : option bool) : @EgoDataset toy :=
  toy_dataset_with linalg_inv identity3 frenet.

Definition as_is_dataset : @EgoDataset numpy_as_is :=
  toy_dataset_with (fun _ => Err AttributeError) identity3 None.

(** What the extraction of the second scene is expected to leave: four
    new arrays next to the source arrays, with zero-based intervals. *)
Definition toy_copy : @EgoDataset toy * gmap positive (array Z Z) :=
  ({| cfg := toy_cfg None;
      dataset := {| scenes := 5%positive; frames := 6%positive;
                    agents := 7%positive; tl_faces := 8%positive |};
      rasterizer := tt; perturbation := None |},
   <[8%positive := TlFaces [22; 23]]>
     (<[7%positive := Agents [15; 16; 17]]>
        (<[6%positive := Frames [Frame 103 (0, 1) (0, 2) [];
                                 Frame 104 (1, 3) (2, 2) []]]>
           (<[5%positive := Scenes [Scene (0, 2) [8]]]> toy_heap)))).

(** The Frenet targets the specification asks for: the longitudinal
    coordinate of every target relative to the anchor [s0], the lateral
    coordinate as the primitive returns it. *)
Definition rezeroed (targets : list (Q * Q)) (s0 : Q) : ndarray :=
  Mat ((fun sd => [(sd.1 - s0)%Q; sd.2]) <$> targets).

(** The two-scene store with an empty scene record in place of its
    scenes. *)
Definition empty_scene_heap : gmap positive (array Z Z) :=
  <[1%positive := Scenes [Scene (2, 2) [9]]]> toy_heap.

(** * Python sequences *)

Lemma len_nonneg {A} (l : list A) : 0 <= Py.len l.
Proof. unfold Py.len. lia. Qed.

Lemma getitem_nonneg {A} (l : list A) (i : Z) :
  0 <= i < Py.len l ->
  exists x, l !! Z.to_nat i = Some x /\ Py.getitem l i = Ok x.
Proof.
  intros Hi. unfold Py.getitem.
  replace (i <? 0) with false by lia.
  replace ((i <? 0) || (Py.len l <=? i)) with false by lia.
  destruct (lookup_lt_is_Some_2 l (Z.to_nat i)) as [x Hx].
  { unfold Py.len in Hi. lia. }
  exists x. by rewrite Hx.
Qed.

Lemma getitem_lookup {A} (l : list A) (i : nat) (x : A) :
  l !! i = Some x -> Py.getitem l (Z.of_nat i) = Ok x.
Proof.
  intros Hx. pose proof (lookup_lt_Some _ _ _ Hx) as Hlt.
  destruct (getitem_nonneg l (Z.of_nat i)) as (y & Hy & ->).
  { unfold Py.len. lia. }
  rewrite Nat2Z.id in Hy. congruence.
Qed.

Lemma getitem_negative {A} (l : list A) (i : Z) :
  - Py.len l <= i < 0 -> Py.getitem l i = Py.getitem l (Py.len l + i).
Proof.
  intros Hi. unfold Py.getitem.
  replace (i <? 0) with true by lia.
  replace (Py.len l + i <? 0) with false by lia.
  by replace (i + Py.len l) with (Py.len l + i) by lia.
Qed.

Lemma getitem_out_of_range {A} (l : list A) (i : Z) :
  i < - Py.len l \/ Py.len l <= i -> Py.getitem l i = Err IndexError.
Proof.
  intros Hi. unfold Py.getitem. pose proof (len_nonneg l).
  destruct (Z.ltb_spec i 0) as [Hneg|Hneg].
  - replace ((i + Py.len l <? 0) || (Py.len l <=? i + Py.len l)) with true by lia.
    done.
  - replace ((i <? 0) || (Py.len l <=? i)) with true by lia. done.
Qed.

(** A slice with bounds [0 <= lo <= hi] is [take] after [drop]. *)
Lemma slice_take_drop {A} (l : list A) (lo hi : Z) :
  0 <= lo <= hi ->
  Py.slice l lo hi = take (Z.to_nat (hi - lo)) (drop (Z.to_nat lo) l).
Proof.
  intros Hb. unfold Py.slice, Py.clamp, Py.len.
  replace (lo <? 0) with false by lia.
  replace (hi <? 0) with false by lia.
  destruct (decide (lo <= Z.of_nat (length l))) as [Hlo|Hlo].
  - rewrite (Z.min_l lo) by lia.
    destruct (decide (hi <= Z.of_nat (length l))) as [Hhi|Hhi].
    + by rewrite (Z.min_l hi) by lia.
    + rewrite (Z.min_r hi) by lia.
      rewrite !take_ge; [done | |]; rewrite length_drop; lia.
  - rewrite (Z.min_r lo), (Z.min_r hi) by lia.
    rewrite !drop_ge by lia. by rewrite !take_nil.
Qed.

Lemma slice_all {A} (l : list A) : Py.slice l 0 (Py.len l) = l.
Proof.
  pose proof (len_nonneg l).
  rewrite slice_take_drop by lia.
  rewrite Z.sub_0_r. change (Z.to_nat 0) with O. rewrite drop_0.
  rewrite take_ge; [done|]. unfold Py.len. lia.
Qed.

Lemma slice_length {A} (l : list A) (lo hi : Z) :
  0 <= lo <= hi -> hi <= Py.len l ->
  Py.len (Py.slice l lo hi) = hi - lo.
Proof.
  intros Hb Hh. rewrite slice_take_drop by done.
  unfold Py.len in *. rewrite length_take, length_drop. lia.
Qed.

Lemma slice_lookup {A} (l : list A) (lo hi : Z) (j : nat) :
  0 <= lo <= hi -> Z.of_nat j < hi - lo ->
  Py.slice l lo hi !! j = l !! (Z.to_nat lo + j)%nat.
Proof.
  intros Hb Hj. rewrite slice_take_drop by done.
  rewrite lookup_take_lt by lia. by rewrite lookup_drop.
Qed.

(** A slice of a slice: the inner bounds are relative to the outer start. *)
Lemma slice_slice {A} (l : list A) (lo hi a b : Z) :
  0 <= lo <= a -> a <= b <= hi ->
  Py.slice (Py.slice l lo hi) (a - lo) (b - lo) = Py.slice l a b.
Proof.
  intros H1 H2.
  rewrite (slice_take_drop (Py.slice l lo hi)) by lia.
  rewrite !slice_take_drop by lia.
  replace (b - lo - (a - lo)) with (b - a) by lia.
  rewrite (take_drop_commute l), drop_drop.
  replace (Z.to_nat lo + Z.to_nat (a - lo))%nat with (Z.to_nat a) by lia.
  rewrite !(take_drop_commute _ _ (Z.to_nat a)), take_take.
  do 2 f_equal. lia.
Qed.

(** * Right bisection *)

Lemma bisect_loop_range (fuel : nat) (a : list Z) (x lo hi : Z) :
  lo <= hi -> lo <= Py.bisect_loop fuel a x lo hi <= hi.
Proof.
  revert lo hi. induction fuel as [|fuel IH]; intros lo hi Hle; simpl; [lia|].
  destruct (Z.ltb_spec lo hi) as [Hlt|Hge]; [|lia].
  assert (lo <= (lo + hi) `div` 2 < hi) as Hmid
    by (Z.div_mod_to_equations; lia).
  destruct (x <? _).
  - specialize (IH lo ((lo + hi) `div` 2)). lia.
  - specialize (IH ((lo + hi) `div` 2 + 1) hi). lia.
Qed.

Lemma bisect_right_range (a : list Z) (x : Z) :
  0 <= Py.bisect_right a x <= Py.len a.
Proof. apply bisect_loop_range, len_nonneg. Qed.

Lemma sorted_lookup (a : list Z) (i j : nat) (vi vj : Z) :
  StronglySorted Z.le a -> (i <= j)%nat ->
  a !! i = Some vi -> a !! j = Some vj -> vi <= vj.
Proof.
  intros Hs. revert i j. induction Hs as [|c a Hs IH Hall]; intros i j Hij Hi Hj.
  - by rewrite lookup_nil in Hi.
  - destruct i as [|i], j as [|j]; simpl in *; simplify_eq; try lia.
    + rewrite Forall_lookup in Hall. eauto.
    + eapply IH; [|done..]. lia.
Qed.

(** The loop keeps [a[j] <= x] to the left of [lo] and [x < a[j]] from
    [hi] on, and has fuel left when the interval closes. *)
Lemma bisect_loop_sorted (fuel : nat) (a : list Z) (x lo hi : Z) :
  StronglySorted Z.le a ->
  0 <= lo <= hi -> hi <= Py.len a -> hi - lo <= Z.of_nat fuel ->
  (forall (j : nat) v, Z.of_nat j < lo -> a !! j = Some v -> v <= x) ->
  (forall (j : nat) v, hi <= Z.of_nat j -> a !! j = Some v -> x < v) ->
  let r := Py.bisect_loop fuel a x lo hi in
  (forall (j : nat) v, Z.of_nat j < r -> a !! j = Some v -> v <= x) /\
  (forall (j : nat) v, r <= Z.of_nat j -> a !! j = Some v -> x < v).
Proof.
  intros Hs. revert lo hi.
  induction fuel as [|fuel IH]; intros lo hi Hb Hlen Hfuel Hl Hr; simpl.
  - split; [done|]. intros j v Hj. apply Hr. lia.
  - destruct (Z.ltb_spec lo hi) as [Hlt|Hge].
    2:{ split; [done|]. intros j v Hj. apply Hr. lia. }
    assert (lo <= (lo + hi) `div` 2 < hi) as Hmid
      by (Z.div_mod_to_equations; lia).
    set (mid := (lo + hi) `div` 2) in *.
    destruct (lookup_lt_is_Some_2 a (Z.to_nat mid)) as [m Hm].
    { unfold Py.len in Hlen. lia. }
    rewrite Hm. simpl.
    destruct (Z.ltb_spec x m) as [Hx|Hx].
    + apply IH; [lia..|done|].
      intros j v Hj Hv. eapply Z.lt_le_trans; [exact Hx|].
      eapply (sorted_lookup a (Z.to_nat mid) j); [done|lia|done..].
    + apply IH; [lia..| |done].
      intros j v Hj Hv. etrans; [|exact Hx].
      eapply (sorted_lookup a j (Z.to_nat mid)); [done|lia|done..].
Qed.

(** On a non-decreasing array, right bisection splits the array at the
    first element greater than [x]. *)
Lemma bisect_right_sorted (a : list Z) (x : Z) :
  StronglySorted Z.le a ->
  (forall (j : nat) v,
     Z.of_nat j < Py.bisect_right a x -> a !! j = Some v -> v <= x) /\
  (forall (j : nat) v,
     Py.bisect_right a x <= Z.of_nat j -> a !! j = Some v -> x < v).
Proof.
  intros Hs. unfold Py.bisect_right.
  apply bisect_loop_sorted; try done.
  - pose proof (len_nonneg a). lia.
  - unfold Py.len. lia.
  - intros j v Hj. lia.
  - intros j v Hj Hv. apply lookup_lt_Some in Hv. unfold Py.len in Hj. lia.
Qed.

Lemma bisect_right_scene (a : list Z) (x : Z) (k : nat) (hi : Z) :
  StronglySorted Z.le a ->
  a !! k = Some hi -> scene_start a k <= x < hi ->
  Py.bisect_right a x = Z.of_nat k.
Proof.
  intros Hs Hk [Hlo Hhi].
  destruct (bisect_right_sorted a x Hs) as [Hl Hr].
  pose proof (bisect_right_range a x) as Hrange.
  assert (Py.bisect_right a x <= Z.of_nat k) as Hle.
  { destruct (Z.le_gt_cases (Py.bisect_right a x) (Z.of_nat k)) as [|Hgt]; [done|].
    specialize (Hl k hi Hgt Hk). lia. }
  destruct k as [|k]; [lia|].
  destruct (Z.le_gt_cases (Z.of_nat (S k)) (Py.bisect_right a x)) as [|Hgt]; [lia|].
  simpl in Hlo.
  destruct (lookup_lt_is_Some_2 a k) as [c Hc].
  { apply lookup_lt_Some in Hk. lia. }
  rewrite Hc in Hlo. simpl in Hlo.
  specialize (Hr k c ltac:(lia) Hc). lia.
Qed.

(** * Index resolution *)

Section Resolve.
Context `{Collaborators}.
Implicit Types (h : heap) (self : EgoDataset).

(** What [resolve] computes on a non-negative index. *)
Lemma resolve_nonneg h self (i : Z) :
  0 <= i ->
  exists off,
    resolve h self i = Ok (Py.bisect_right (cumulative_sizes h self) i, off) /\
    flat_index (cumulative_sizes h self)
      (Py.bisect_right (cumulative_sizes h self) i, off) = Ok i.
Proof.
  intros Hi. unfold resolve, flat_index.
  replace (i <? 0) with false by lia. simpl.
  pose proof (bisect_right_range (cumulative_sizes h self) i) as Hr.
  destruct (Z.eqb_spec (Py.bisect_right (cumulative_sizes h self) i) 0) as [Hz|Hz].
  - by exists i.
  - destruct (getitem_nonneg (cumulative_sizes h self)
                (Py.bisect_right (cumulative_sizes h self) i - 1))
      as (c & _ & ->); [lia|].
    exists (i - c). simpl. split; [done|]. f_equal. lia.
Qed.

Lemma resolve_negative h self (n : Z) :
  n < 0 -> - n <= __len__ h self ->
  resolve h self n = resolve h self (__len__ h self + n).
Proof.
  intros Hn Hlen. unfold resolve.
  replace (n <? 0) with true by lia.
  replace (- n >? __len__ h self) with false by lia.
  by replace (__len__ h self + n <? 0) with false by lia.
Qed.

(** C1. For every valid flat index [i], [0 <= i < length()], resolution by
    right bisection of the cumulative sizes yields a pair
    [(scene_index, in_scene_offset)] from which the flat index is rebuilt:
    [cumulative[scene_index - 1] + in_scene_offset], or [in_scene_offset]
    when [scene_index = 0], is [i] again. *)
Theorem resolve_flat_index_roundtrip h self (i : Z) :
  0 <= i < __len__ h self ->
  exists si,
    resolve h self i = Ok si /\
    si.1 = Py.bisect_right (cumulative_sizes h self) i /\
    flat_index (cumulative_sizes h self) si = Ok i.
Proof.
  intros [Hi _]. destruct (resolve_nonneg h self i Hi) as (off & Hres & Hflat).
  eauto.
Qed.

(** C2. On non-decreasing cumulative sizes, every flat index in
    [[cumulative[k-1], cumulative[k])] ([[0, cumulative[0])] for [k = 0])
    resolves to scene [k], at its offset from the start of the scene; the
    boundary value [cumulative[k-1]] itself resolves to frame 0 of scene
    [k], not to the scene before. *)
Theorem resolve_scene_of_index h self (k : nat) (hi : Z) :
  StronglySorted Z.le (cumulative_sizes h self) ->
  cumulative_sizes h self !! k = Some hi ->
  (forall i, 0 <= i ->
     scene_start (cumulative_sizes h self) k <= i < hi ->
     resolve h self i
     = Ok (Z.of_nat k, i - scene_start (cumulative_sizes h self) k)) /\
  (0 <= scene_start (cumulative_sizes h self) k < hi ->
     resolve h self (scene_start (cumulative_sizes h self) k)
     = Ok (Z.of_nat k, 0)).
Proof.
  intros Hs Hk.
  assert (forall i, 0 <= i ->
            scene_start (cumulative_sizes h self) k <= i < hi ->
            resolve h self i
            = Ok (Z.of_nat k, i - scene_start (cumulative_sizes h self) k)) as Hin.
  { intros i Hi Hrange.
    pose proof (bisect_right_scene _ i k hi Hs Hk Hrange) as Hb.
    unfold resolve. replace (i <? 0) with false by lia.
    cbn [mbind result_bind]. rewrite Hb.
    destruct k as [|k].
    - cbn [scene_start]. by rewrite Z.sub_0_r.
    - destruct (Z.eqb_spec (Z.of_nat (S k)) 0) as [|_]; [lia|].
      replace (Z.of_nat (S k) - 1) with (Z.of_nat k) by lia.
      destruct (lookup_lt_is_Some_2 (cumulative_sizes h self) k) as [c Hc].
      { apply lookup_lt_Some in Hk. lia. }
      cbn [scene_start]. by rewrite (getitem_lookup _ _ _ Hc), Hc. }
  split; [done|]. intros Hb.
  rewrite Hin by lia. by rewrite Z.sub_diag.
Qed.

Lemma resolve_below_range h self (n : Z) :
  n < 0 -> - n > __len__ h self ->
  resolve h self n = Err ValueError /\ __getitem__ h self n = Err ValueError.
Proof.
  intros Hn Hgt.
  assert (resolve h self n = Err ValueError) as Hr.
  { unfold resolve. replace (n <? 0) with true by lia.
    by replace (- n >? __len__ h self) with true by lia. }
  split; [done|]. unfold __getitem__. by rewrite Hr.
Qed.

Lemma resolve_end_relative h self (n : Z) :
  n < 0 -> - n <= __len__ h self ->
  is_ok (resolve h self n) = true /\
  resolve h self n = resolve h self (__len__ h self + n) /\
  __getitem__ h self n = __getitem__ h self (__len__ h self + n).
Proof.
  intros Hn Hle. pose proof (resolve_negative h self n Hn Hle) as Hr.
  split; [|split; [done|]].
  - rewrite Hr.
    destruct (resolve_nonneg h self (__len__ h self + n)) as (off & -> & _);
      [lia|done].
  - unfold __getitem__. by rewrite Hr.
Qed.

(** C3. For a negative index [n], lookup fails with [ValueError] exactly
    when [-n > length()]; otherwise the index passes the range check and
    the lookup is the one at the non-negative index [length() + n]. *)
Theorem getitem_negative_index h self (n : Z) :
  n < 0 ->
  (- n > __len__ h self <-> resolve h self n = Err ValueError) /\
  (- n > __len__ h self -> __getitem__ h self n = Err ValueError) /\
  (- n <= __len__ h self ->
     is_ok (resolve h self n) = true /\
     resolve h self n = resolve h self (__len__ h self + n) /\
     __getitem__ h self n = __getitem__ h self (__len__ h self + n)).
Proof.
  intros Hn. split; [split|split].
  - intros Hgt. by apply resolve_below_range.
  - intros Herr. destruct (Z.le_gt_cases (- n) (__len__ h self)) as [Hle|]; [|lia].
    destruct (resolve_end_relative h self n Hn Hle) as [Hok _].
    by rewrite Herr in Hok.
  - intros Hgt. by apply resolve_below_range.
  - by apply resolve_end_relative.
Qed.

(** The three instances spelled out by the specification. *)
Corollary getitem_minus_one h self :
  0 < __len__ h self ->
  __getitem__ h self (-1) = __getitem__ h self (__len__ h self - 1).
Proof.
  intros Hlen.
  destruct (resolve_end_relative h self (-1)) as (_ & _ & ->); [lia..|].
  f_equal.
Qed.

Corollary getitem_minus_len h self :
  0 < __len__ h self ->
  __getitem__ h self (- __len__ h self) = __getitem__ h self 0.
Proof.
  intros Hlen.
  destruct (resolve_end_relative h self (- __len__ h self)) as (_ & _ & ->);
    [lia..|].
  f_equal. lia.
Qed.

Corollary getitem_below_minus_len h self :
  __getitem__ h self (- (__len__ h self + 1)) = Err ValueError.
Proof.
  pose proof (len_nonneg (frames_of h (frames (dataset self)))) as Hlen.
  fold (__len__ h self) in Hlen.
  apply resolve_below_range; lia.
Qed.

End Resolve.

(** * The error monad *)

Lemma bind_Ok {A B} (m : result A) (f : A -> result B) (b : B) :
  m ≫= f = Ok b -> exists a, m = Ok a /\ f a = Ok b.
Proof. destruct m as [a|e]; [eauto|done]. Qed.

Lemma bind_Err {A B} (m : result A) (f : A -> result B) (e : exn) :
  m = Err e -> m ≫= f = Err e.
Proof. by intros ->. Qed.

Ltac inv_bind H :=
  let x := fresh "x" in
  let Hx := fresh "H" x in
  apply bind_Ok in H as (x & Hx & H).

Lemma int64b_spec (z : Z) : int64b z = true <-> int64 z.
Proof. unfold int64b, int64. lia. Qed.

Lemma np_int64_Ok (x y : Z) : np_int64 x = Ok y -> y = x /\ int64 x.
Proof.
  unfold np_int64. destruct (int64b x) eqn:Hx; [|done].
  intros [= <-]. by apply int64b_spec in Hx.
Qed.

Lemma wrap64_id (z : Z) : int64 z -> wrap64 z = z.
Proof.
  unfold wrap64, int64. intros Hz.
  rewrite Z.mod_small; lia.
Qed.

(** * Ranges *)

Lemma arange_length (a b : Z) : Py.len (Py.arange a b) = Z.max 0 (b - a).
Proof. unfold Py.len, Py.arange. rewrite length_fmap, length_seq. lia. Qed.

Lemma arange_lookup (a b : Z) (j : nat) :
  Z.of_nat j < b - a -> Py.arange a b !! j = Some (a + Z.of_nat j).
Proof.
  intros Hj. unfold Py.arange.
  rewrite list_lookup_fmap, lookup_seq_lt by lia. done.
Qed.

Lemma elem_of_arange (a b x : Z) : x ∈ Py.arange a b <-> a <= x < b.
Proof.
  unfold Py.arange. rewrite list_elem_of_fmap. split.
  - intros (i & -> & Hi). apply elem_of_seq in Hi. lia.
  - intros Hx. exists (Z.to_nat (x - a)). split; [lia|].
    apply elem_of_seq. lia.
Qed.

(** * Index lookups *)

Section Indices.
Context `{Collaborators}.
Implicit Types (h : heap) (self : EgoDataset).

Lemma get_scene_indices_at h self (k : nat) (sc : scene) :
  scenes_of h (scenes (dataset self)) !! k = Some sc ->
  get_scene_indices h self (Z.of_nat k)
  = Ok (Py.arange (frame_index_interval sc).1 (frame_index_interval sc).2).
Proof.
  intros Hk. unfold get_scene_indices.
  pose proof (lookup_lt_Some _ _ _ Hk) as Hlt.
  replace (Z.of_nat k <? Py.len (scenes_of h (scenes (dataset self))))
    with true by (unfold Py.len; lia).
  cbn [assert mbind result_bind].
  by rewrite (getitem_lookup _ _ _ Hk).
Qed.

Lemma get_scene_indices_at_count h self :
  get_scene_indices h self (Py.len (scenes_of h (scenes (dataset self))))
  = Err AssertionError.
Proof.
  unfold get_scene_indices. by rewrite Z.ltb_irrefl.
Qed.

(** C8. Under the tiling of the frame sequence by the scene intervals,
    [get_scene_indices(k)] for a scene index [k < scene_count()] is the
    integer range [[cumulative[k-1], cumulative[k])] (from 0 for the first
    scene), which is the range of the scene record's
    [frame_index_interval]; with [k = scene_count()] the assertion
    fails. *)
Theorem get_scene_indices_range h self (k : nat) (hi : Z) :
  scenes_contiguous (scenes_of h (scenes (dataset self))) ->
  cumulative_sizes h self !! k = Some hi ->
  get_scene_indices h self (Z.of_nat k)
  = Ok (Py.arange (scene_start (cumulative_sizes h self) k) hi) /\
  (exists sc,
     scenes_of h (scenes (dataset self)) !! k = Some sc /\
     frame_index_interval sc = (scene_start (cumulative_sizes h self) k, hi)) /\
  get_scene_indices h self (Py.len (scenes_of h (scenes (dataset self))))
  = Err AssertionError.
Proof.
  intros Hc Hk. unfold cumulative_sizes in *.
  rewrite list_lookup_fmap in Hk.
  destruct (scenes_of h (scenes (dataset self)) !! k) as [sc|] eqn:Hsc; [|done].
  injection Hk as Hhi. specialize (Hc k sc Hsc).
  rewrite (get_scene_indices_at h self k sc Hsc), Hc, Hhi.
  split; [done|]. split; [|apply get_scene_indices_at_count].
  exists sc. split; [done|].
  destruct (frame_index_interval sc) as [lo hi'] eqn:Hiv. simpl in *. congruence.
Qed.

(** C10, as the code has it.  For every negative argument the assertion
    passes.  [get_scene_indices(k)] is then the frame range of the scene at
    the end-relative position [scene_count() + k] when
    [-scene_count() <= k], and an [IndexError] below that;
    [get_frame_indices(k)] is the one-element array [(k,)] itself for
    every [k] that fits [int64], and an [OverflowError] below that. *)
Theorem negative_index_lookups h self (k : Z) :
  k < 0 ->
  (- Py.len (scenes_of h (scenes (dataset self))) <= k ->
   exists sc,
     scenes_of h (scenes (dataset self))
       !! Z.to_nat (Py.len (scenes_of h (scenes (dataset self))) + k) = Some sc /\
     get_scene_indices h self k
     = Ok (Py.arange (frame_index_interval sc).1 (frame_index_interval sc).2)) /\
  (k < - Py.len (scenes_of h (scenes (dataset self))) ->
   get_scene_indices h self k = Err IndexError) /\
  (- 2 ^ 63 <= k -> get_frame_indices h self k = Ok [k]) /\
  (k < - 2 ^ 63 -> get_frame_indices h self k = Err OverflowError).
Proof.
  intros Hk.
  pose proof (len_nonneg (scenes_of h (scenes (dataset self)))) as Hs.
  pose proof (len_nonneg (frames_of h (frames (dataset self)))) as Hf.
  assert (forall n, 0 <= n -> (k <? n) = true) as Hpass by (intros; lia).
  repeat split.
  - intros Hlo. unfold get_scene_indices.
    rewrite Hpass by done. cbn [assert mbind result_bind].
    rewrite getitem_negative by lia.
    destruct (getitem_nonneg (scenes_of h (scenes (dataset self)))
                (Py.len (scenes_of h (scenes (dataset self))) + k))
      as (sc & Hsc & ->); [lia|].
    by exists sc.
  - intros Hlo. unfold get_scene_indices.
    rewrite Hpass by done. cbn [assert mbind result_bind].
    rewrite getitem_out_of_range by lia. done.
  - intros Hlo. unfold get_frame_indices, np_int64.
    rewrite Hpass by done. cbn [assert mbind result_bind].
    replace (int64b k) with true; [done|].
    symmetry. apply int64b_spec. unfold int64. lia.
  - intros Hlo. unfold get_frame_indices, np_int64.
    rewrite Hpass by done. cbn [assert mbind result_bind].
    replace (int64b k) with false; [done|].
    unfold int64b. lia.
Qed.

End Indices.

(** * Frames *)

Section Frames.
Context `{Collaborators}.
Implicit Types (h : heap) (self : EgoDataset) (data : Sample).

(** [get_frame] returns as soon as its four fallible steps succeed and
    the track id fits [int64]. *)
Lemma get_frame_returns h self (scene_index state_index : Z)
    (track_id : option Z) (sc : scene) data (targets : ndarray * ndarray)
    (fr : frame) :
  Py.getitem (scenes_of h (scenes (dataset self))) scene_index = Ok sc ->
  sample_function self state_index
    (Py.slice (frames_of h (frames (dataset self)))
       (frame_index_interval sc).1 (frame_index_interval sc).2)
    (agents_of h (agents (dataset self)))
    (tl_faces_of h (tl_faces (dataset self))) track_id = Ok data ->
  (if default true (use_frenet (cfg self))
   then frenet_targets self data (data_target_positions data) (data_target_yaws data)
   else Ok (data_target_positions data, data_target_yaws data)) = Ok targets ->
  Py.getitem (frames_of h (frames (dataset self)))
    ((frame_index_interval sc).1 + state_index) = Ok fr ->
  int64 (track_id_or_ego track_id) ->
  exists ex,
    get_frame h self scene_index state_index track_id = Ok ex /\
    out_track_id ex = track_id_or_ego track_id /\
    out_timestamp ex = timestamp fr /\
    (out_target_positions ex, out_target_yaws ex) = targets.
Proof.
  intros Hsc Hdata Htargets Hfr Hid. unfold get_frame.
  rewrite Hsc. cbn [mbind result_bind]. rewrite Hdata. cbn [mbind result_bind].
  rewrite Htargets. cbn [mbind result_bind]. rewrite Hfr. cbn [mbind result_bind].
  unfold np_int64, track_id_or_ego in *.
  apply int64b_spec in Hid. rewrite Hid. cbn [mbind result_bind].
  eexists. split; [reflexivity|]. cbn. by destruct targets.
Qed.

(** C9. The [track_id] of every example [get_frame] returns is an
    [int64] number: -1 when the argument is [None] (the ego), the given
    track id otherwise.  The field is set on every path that returns, and
    [get_frame] does return whenever its lookups, the sample generator and
    the target conversion succeed and the track id fits [int64]; for the
    ego it always fits. *)
Theorem get_frame_track_id h self (scene_index state_index : Z)
    (track_id : option Z) :
  (forall ex,
     get_frame h self scene_index state_index track_id = Ok ex ->
     out_track_id ex = track_id_or_ego track_id /\ int64 (out_track_id ex)) /\
  (forall ex,
     get_frame h self scene_index state_index None = Ok ex ->
     out_track_id ex = -1) /\
  (forall sc data targets fr,
     Py.getitem (scenes_of h (scenes (dataset self))) scene_index = Ok sc ->
     sample_function self state_index
       (Py.slice (frames_of h (frames (dataset self)))
          (frame_index_interval sc).1 (frame_index_interval sc).2)
       (agents_of h (agents (dataset self)))
       (tl_faces_of h (tl_faces (dataset self))) track_id = Ok data ->
     (if default true (use_frenet (cfg self))
      then frenet_targets self data (data_target_positions data)
             (data_target_yaws data)
      else Ok (data_target_positions data, data_target_yaws data)) = Ok targets ->
     Py.getitem (frames_of h (frames (dataset self)))
       ((frame_index_interval sc).1 + state_index) = Ok fr ->
     int64 (track_id_or_ego track_id) ->
     exists ex,
       get_frame h self scene_index state_index track_id = Ok ex /\
       out_track_id ex = track_id_or_ego track_id).
Proof.
  assert (forall tid ex,
            get_frame h self scene_index state_index tid = Ok ex ->
            out_track_id ex = track_id_or_ego tid /\ int64 (out_track_id ex)) as Hset.
  { intros tid ex Hget. unfold get_frame in Hget.
    repeat inv_bind Hget. injection Hget as <-. cbn [out_track_id].
    match goal with
    | Hn : np_int64 _ = Ok _ |- _ => apply np_int64_Ok in Hn as [-> Hr]
    end.
    done. }
  split; [apply Hset|]. split.
  - intros ex Hget. by destruct (Hset None ex Hget).
  - intros sc data targets fr Hsc Hdata Htargets Hfr Hid.
    destruct (get_frame_returns h self scene_index state_index track_id
                sc data targets fr Hsc Hdata Htargets Hfr Hid)
      as (ex & Hget & Htid & _).
    eauto.
Qed.

Lemma frenet_targets_inverse_error self data (tp ty : ndarray) (e : exn) :
  np_inverse (data_world_to_image data) = Err e ->
  frenet_targets self data tp ty = Err e.
Proof. intros He. unfold frenet_targets. by rewrite He. Qed.

Lemma frenet_targets_bad_shape self data (tp ty m : ndarray) :
  np_inverse (data_world_to_image data) = Ok m ->
  shape m <> [3; 3]%nat ->
  frenet_targets self data tp ty = Err AssertionError.
Proof.
  intros Hm Hs. unfold frenet_targets. rewrite Hm. cbn [mbind result_bind].
  by rewrite bool_decide_eq_false_2.
Qed.

(** With the Frenet branch on, an error of the branch is the error of
    [get_frame]: nothing catches it and no other targets are returned. *)
Lemma get_frame_frenet_error h self (scene_index state_index : Z)
    (track_id : option Z) (sc : scene) data (e : exn) :
  default true (use_frenet (cfg self)) = true ->
  Py.getitem (scenes_of h (scenes (dataset self))) scene_index = Ok sc ->
  sample_function self state_index
    (Py.slice (frames_of h (frames (dataset self)))
       (frame_index_interval sc).1 (frame_index_interval sc).2)
    (agents_of h (agents (dataset self)))
    (tl_faces_of h (tl_faces (dataset self))) track_id = Ok data ->
  frenet_targets self data (data_target_positions data) (data_target_yaws data)
  = Err e ->
  get_frame h self scene_index state_index track_id = Err e.
Proof.
  intros Hon Hsc Hdata He. unfold get_frame.
  rewrite Hsc. cbn [mbind result_bind]. rewrite Hdata. cbn [mbind result_bind].
  by rewrite Hon, He.
Qed.

(** C5. With Frenet conversion on, if the inversion of the sample's
    raster transform fails, or its result is not of shape [(3, 3)],
    [get_frame] fails with that error (the error of the inversion, or the
    [AssertionError] of the shape check): no example is returned, hence no
    pixel-space targets either. *)
Theorem get_frame_frenet_hard_error h self (scene_index state_index : Z)
    (track_id : option Z) (sc : scene) data :
  default true (use_frenet (cfg self)) = true ->
  Py.getitem (scenes_of h (scenes (dataset self))) scene_index = Ok sc ->
  sample_function self state_index
    (Py.slice (frames_of h (frames (dataset self)))
       (frame_index_interval sc).1 (frame_index_interval sc).2)
    (agents_of h (agents (dataset self)))
    (tl_faces_of h (tl_faces (dataset self))) track_id = Ok data ->
  (forall e,
     np_inverse (data_world_to_image data) = Err e ->
     get_frame h self scene_index state_index track_id = Err e) /\
  (forall m,
     np_inverse (data_world_to_image data) = Ok m ->
     shape m <> [3; 3]%nat ->
     get_frame h self scene_index state_index track_id = Err AssertionError).
Proof.
  intros Hon Hsc Hdata. split.
  - intros e He. eapply get_frame_frenet_error; [done..|].
    by apply frenet_targets_inverse_error.
  - intros m Hm Hs. eapply get_frame_frenet_error; [done..|].
    by eapply frenet_targets_bad_shape.
Qed.

End Frames.

(** * The re-zeroing step of the Frenet branch

    [target_frenet_positions] holds one row [(s, d)] per target, shape
    [(N, 2)]; the anchor is the column [[[s0], [0]]], shape [(2, 1)].
    Broadcasting pairs the rows of the column with the targets, not with
    the coordinates. *)



(** numpy as it is: [np.inverse] does not exist and the Frenet branch,
    on by default, stops every call of [get_frame]. *)
Lemma get_frame_np_inverse_missing :
  get_frame (H:=numpy_as_is) toy_heap as_is_dataset 1 1 None = Err AttributeError.
Proof. reflexivity. Qed.

(** C4, at a failing input.  Frenet conversion on, identity raster
    transform (inverted by [np.linalg.inv]), identity route-Frenet
    primitive, targets [(1, 2)] and [(3, 4)], ego center [(5, 7)], so that
    [s0 = 5]: the claim asks for [(1 - 5, 2)] and [(3 - 5, 4)];
    [get_frame] returns [(1 - 5, 2 - 5)] for the first target and
    [(3, 4)], not re-zeroed, for the second. *)
Theorem frenet_rezero_subtracts_column :
  exists ex,
    get_frame toy_heap (toy_dataset None) 1 1 None = Ok ex /\
    out_target_positions ex = Mat [[-4; -3]; [3; 4]]%Q /\
    rezeroed [(1, 2); (3, 4)]%Q 5%Q = Mat [[-4; 2]; [-2; 4]]%Q /\
    out_target_positions ex <> rezeroed [(1, 2); (3, 4)]%Q 5%Q.
Proof.
  eexists. split; [vm_compute; reflexivity|].
  split; [reflexivity|]. split; [reflexivity|].
  vm_compute. discriminate.
Qed.

(** * Scene extraction *)

Section Extraction.
Context `{Collaborators}.
Implicit Types (h : heap) (self : EgoDataset) (r : ref).

Lemma copy_spec h (a : array agent tl_face) r h' :
  copy h a = (r, h') ->
  (r ∉ dom h) /\ h' !! r = Some a /\
  (forall r', r' <> r -> h' !! r' = h !! r') /\
  dom h' = {[r]} ∪ dom h.
Proof.
  unfold copy. intros [= <- <-]. split; [apply is_fresh|].
  split; [apply lookup_insert_eq|]. split.
  - intros r' Hne. by apply lookup_insert_ne.
  - apply dom_insert_L.
Qed.

(** An array of one kind allocated at a fresh reference leaves the reads
    of the other kinds as they were, at every reference. *)
Lemma frames_of_copy h (a : array agent tl_face) r h' r0 :
  copy h a = (r, h') -> (forall l, a <> Frames l) ->
  frames_of h' r0 = frames_of h r0.
Proof.
  intros (Hfresh & Hnew & Hold & _)%copy_spec Ha. unfold frames_of.
  destruct (decide (r0 = r)) as [->|Hne]; [|by rewrite Hold].
  rewrite Hnew, (not_elem_of_dom_1 h r Hfresh).
  destruct a; try done. by destruct (Ha l).
Qed.

Lemma agents_of_copy h (a : array agent tl_face) r h' r0 :
  copy h a = (r, h') -> (forall l, a <> Agents l) ->
  agents_of h' r0 = agents_of h r0.
Proof.
  intros (Hfresh & Hnew & Hold & _)%copy_spec Ha. unfold agents_of.
  destruct (decide (r0 = r)) as [->|Hne]; [|by rewrite Hold].
  rewrite Hnew, (not_elem_of_dom_1 h r Hfresh).
  destruct a; try done. by destruct (Ha l).
Qed.

Lemma tl_faces_of_copy h (a : array agent tl_face) r h' r0 :
  copy h a = (r, h') -> (forall l, a <> TlFaces l) ->
  tl_faces_of h' r0 = tl_faces_of h r0.
Proof.
  intros (Hfresh & Hnew & Hold & _)%copy_spec Ha. unfold tl_faces_of.
  destruct (decide (r0 = r)) as [->|Hne]; [|by rewrite Hold].
  rewrite Hnew, (not_elem_of_dom_1 h r Hfresh).
  destruct a; try done. by destruct (Ha l).
Qed.

Lemma getitem_last_of_first {A} (l : list A) (x : A) :
  Py.getitem l 0 = Ok x -> exists y, Py.getitem l (-1) = Ok y /\ last l = Some y.
Proof.
  destruct l as [|x0 l]; [done|]. intros _.
  rewrite getitem_negative by (unfold Py.len; simpl; lia).
  destruct (getitem_nonneg (x0 :: l) (Py.len (x0 :: l) + -1)) as (y & Hy & ->).
  { unfold Py.len; simpl; lia. }
  exists y. split; [done|]. rewrite last_lookup. rewrite <- Hy. f_equal.
  unfold Py.len. simpl. lia.
Qed.

(** A run of the extraction on a scene slice with a first record and a
    frame window with a first and a last frame. *)
Lemma get_scene_dataset_run h self (k : Z) (sc : scene) (f0 fl : frame) :
  let src := dataset self in
  let window := Py.slice (frames_of h (frames src))
                  (frame_index_interval sc).1 (frame_index_interval sc).2 in
  Py.getitem (Py.slice (scenes_of h (scenes src)) k (k + 1)) 0 = Ok sc ->
  Py.getitem window 0 = Ok f0 ->
  Py.getitem window (-1) = Ok fl ->
  exists r1 r2 r3 r4 h',
    get_scene_dataset h self k
    = Ok ({| cfg := cfg self;
             dataset := {| scenes := r1; frames := r2; agents := r3; tl_faces := r4 |};
             rasterizer := rasterizer self;
             perturbation := perturbation self |}, h') /\
    ((r1 ∉ dom h) /\ (r2 ∉ dom h) /\ (r3 ∉ dom h) /\ (r4 ∉ dom h)) /\
    NoDup [r1; r2; r3; r4] /\
    dom h' = {[r1; r2; r3; r4]} ∪ dom h /\
    (forall r, r ∈ dom h -> h' !! r = h !! r) /\
    scenes_of h' r1
    = rebase_frames (frame_index_interval sc).1
        <$> Py.slice (scenes_of h (scenes src)) k (k + 1) /\
    frames_of h' r2
    = rebase_tl_faces (traffic_light_faces_index_interval f0).1
        <$> (rebase_agents (agent_index_interval f0).1 <$> window) /\
    agents_of h' r3
    = Py.slice (agents_of h (agents src))
        (agent_index_interval f0).1 (agent_index_interval fl).2 /\
    tl_faces_of h' r4
    = Py.slice (tl_faces_of h (tl_faces src))
        (traffic_light_faces_index_interval f0).1
        (traffic_light_faces_index_interval fl).2.
Proof.
  intros src window Hsc Hf0 Hfl. unfold get_scene_dataset. fold src.
  destruct (copy h _) as [r1 h1] eqn:Hc1.
  pose proof (copy_spec _ _ _ _ Hc1) as (Hr1 & Hn1 & Ho1 & Hd1).
  assert (scenes_of h1 r1 = Py.slice (scenes_of h (scenes src)) k (k + 1)) as ->
    by (unfold scenes_of at 1; by rewrite Hn1).
  rewrite Hsc. cbn [mbind result_bind].
  rewrite (frames_of_copy _ _ _ _ (frames src) Hc1) by done. fold window.
  destruct (copy h1 _) as [r2 h2] eqn:Hc2.
  pose proof (copy_spec _ _ _ _ Hc2) as (Hr2 & Hn2 & Ho2 & Hd2).
  assert (frames_of h2 r2 = window) as -> by (unfold frames_of; by rewrite Hn2).
  rewrite Hf0, Hfl. cbn [mbind result_bind].
  rewrite (agents_of_copy _ _ _ _ (agents src) Hc2) by done.
  rewrite (agents_of_copy _ _ _ _ (agents src) Hc1) by done.
  destruct (copy h2 _) as [r3 h3] eqn:Hc3.
  pose proof (copy_spec _ _ _ _ Hc3) as (Hr3 & Hn3 & Ho3 & Hd3).
  assert (r2 <> r3) as Hr23.
  { intros ->. apply Hr3. rewrite Hd2. apply elem_of_union_l. by apply elem_of_singleton. }
  assert (frames_of h3 r2 = window) as ->
    by (unfold frames_of; by rewrite Ho3, Hn2).
  rewrite Hf0, Hfl. cbn [mbind result_bind].
  rewrite (tl_faces_of_copy _ _ _ _ (tl_faces src) Hc3) by done.
  rewrite (tl_faces_of_copy _ _ _ _ (tl_faces src) Hc2) by done.
  rewrite (tl_faces_of_copy _ _ _ _ (tl_faces src) Hc1) by done.
  destruct (copy h3 _) as [r4 h4] eqn:Hc4.
  pose proof (copy_spec _ _ _ _ Hc4) as (Hr4 & Hn4 & Ho4 & Hd4).
  rewrite Hd3, Hd2, Hd1 in Hr4. rewrite Hd2, Hd1 in Hr3. rewrite Hd1 in Hr2.
  repeat rewrite not_elem_of_union in Hr2. repeat rewrite not_elem_of_union in Hr3.
  repeat rewrite not_elem_of_union in Hr4.
  destruct Hr2 as [Hr21%not_elem_of_singleton Hr2],
           Hr3 as (_ & Hr31%not_elem_of_singleton & Hr3),
           Hr4 as (Hr43%not_elem_of_singleton & Hr42%not_elem_of_singleton
                   & Hr41%not_elem_of_singleton & Hr4).
  assert (r1 <> r2 /\ r1 <> r3 /\ r1 <> r4 /\ r2 <> r4 /\ r3 <> r4)
    as (Hr12 & Hr13 & Hr14 & Hr24 & Hr34) by (repeat split; congruence).
  assert (frames_of h4 r2 = window) as ->
    by (unfold frames_of; by rewrite Ho4, Ho3, Hn2).
  set (fs1 := rebase_agents (agent_index_interval f0).1 <$> window).
  assert (frames_of (<[r2 := Frames fs1]> h4) r2 = fs1) as ->
    by (unfold frames_of; by rewrite lookup_insert_eq).
  set (fs2 := rebase_tl_faces (traffic_light_faces_index_interval f0).1 <$> fs1).
  assert (scenes_of (<[r2 := Frames fs2]> (<[r2 := Frames fs1]> h4)) r1
          = Py.slice (scenes_of h (scenes src)) k (k + 1)) as ->.
  { unfold scenes_of at 1.
    by rewrite !lookup_insert_ne, Ho4, Ho3, Ho2, Hn1 by done. }
  eexists r1, r2, r3, r4, _. split; [reflexivity|].
  split; [done|]. split.
  { repeat (apply NoDup_cons; split); [..|apply NoDup_nil_2];
      rewrite ?elem_of_cons, elem_of_nil; intuition congruence. }
  split.
  { rewrite !dom_insert_L, Hd4, Hd3, Hd2, Hd1. apply set_eq. intros r.
    rewrite !elem_of_union, !elem_of_singleton. tauto. }
  split.
  { intros r Hr.
    assert (r <> r1 /\ r <> r2 /\ r <> r3 /\ r <> r4) as (? & ? & ? & ?)
      by (repeat split; intros ->; done).
    by rewrite !lookup_insert_ne, Ho4, Ho3, Ho2, Ho1 by done. }
  split.
  { unfold scenes_of at 1. by rewrite lookup_insert_eq. }
  split.
  { unfold frames_of. by rewrite lookup_insert_ne, lookup_insert_eq by done. }
  split.
  { unfold agents_of at 1. by rewrite !lookup_insert_ne, Ho4, Hn3 by done. }
  unfold tl_faces_of at 1. by rewrite !lookup_insert_ne, Hn4 by done.
Qed.

Lemma get_scene_dataset_inv h self (k : Z) self' h' :
  get_scene_dataset h self k = Ok (self', h') ->
  exists sc f0 fl,
    let window := Py.slice (frames_of h (frames (dataset self)))
                    (frame_index_interval sc).1 (frame_index_interval sc).2 in
    Py.getitem (Py.slice (scenes_of h (scenes (dataset self))) k (k + 1)) 0 = Ok sc /\
    Py.getitem window 0 = Ok f0 /\
    Py.getitem window (-1) = Ok fl.
Proof.
  intros Hget. unfold get_scene_dataset in Hget.
  destruct (copy h _) as [r1 h1] eqn:Hc1.
  pose proof (copy_spec _ _ _ _ Hc1) as (Hr1 & Hn1 & Ho1 & Hd1).
  assert (scenes_of h1 r1
          = Py.slice (scenes_of h (scenes (dataset self))) k (k + 1)) as Hs
    by (unfold scenes_of at 1; by rewrite Hn1).
  rewrite Hs in Hget. inv_bind Hget.
  rewrite (frames_of_copy _ _ _ _ (frames (dataset self)) Hc1) in Hget by done.
  destruct (copy h1 _) as [r2 h2] eqn:Hc2.
  pose proof (copy_spec _ _ _ _ Hc2) as (Hr2 & Hn2 & Ho2 & Hd2).
  assert (frames_of h2 r2
          = Py.slice (frames_of h (frames (dataset self)))
              (frame_index_interval x).1 (frame_index_interval x).2) as Hf
    by (unfold frames_of at 1; by rewrite Hn2).
  rewrite Hf in Hget. do 2 inv_bind Hget.
  by exists x, x0, x1.
Qed.

(** C7. A successful extraction leaves every array of the heap it
    started from as it was, the four arrays of the source store among
    them; the extracted store holds four new arrays, distinct from each
    other and from every array that existed before; a later update of an
    array of either store is not seen through the other. *)
Theorem get_scene_dataset_isolated h self (k : Z) self' h' :
  get_scene_dataset h self k = Ok (self', h') ->
  (forall r, r ∈ dom h -> h' !! r = h !! r) /\
  (allocated h (dataset self) ->
   scenes_of h' (scenes (dataset self)) = scenes_of h (scenes (dataset self)) /\
   frames_of h' (frames (dataset self)) = frames_of h (frames (dataset self)) /\
   agents_of h' (agents (dataset self)) = agents_of h (agents (dataset self)) /\
   tl_faces_of h' (tl_faces (dataset self))
   = tl_faces_of h (tl_faces (dataset self))) /\
  Forall (fun r => (r ∉ dom h) /\ (r ∈ dom h')) (refs (dataset self')) /\
  NoDup (refs (dataset self')) /\
  (forall r r0 a, r ∈ refs (dataset self') -> r0 ∈ dom h ->
     <[r := a]> h' !! r0 = h !! r0) /\
  (forall r r0 a, r ∈ refs (dataset self') -> r0 ∈ dom h ->
     <[r0 := a]> h' !! r = h' !! r).
Proof.
  intros Hget.
  destruct (get_scene_dataset_inv _ _ _ _ _ Hget) as (sc & f0 & fl & Hsc & Hf0 & Hfl).
  destruct (get_scene_dataset_run h self k sc f0 fl Hsc Hf0 Hfl)
    as (r1 & r2 & r3 & r4 & h'' & Hrun & Hfresh & Hnd & Hdom & Hframe & _).
  rewrite Hrun in Hget. injection Hget as <- <-.
  cbn [dataset refs scenes frames agents tl_faces].
  destruct Hfresh as (Hr1 & Hr2 & Hr3 & Hr4).
  assert (forall r, r ∈ [r1; r2; r3; r4] -> (r ∉ dom h) /\ (r ∈ dom h'')) as Hnew.
  { intros r Hr. rewrite Hdom, !elem_of_union, !elem_of_singleton.
    rewrite !elem_of_cons, elem_of_nil in Hr.
    split; [|tauto]. intuition congruence. }
  split; [done|]. split.
  { intros (Hs & Hf & Ha & Ht).
    unfold scenes_of, frames_of, agents_of, tl_faces_of.
    by rewrite !Hframe by done. }
  split; [by apply Forall_forall|]. split; [done|]. split.
  - intros r r0 a Hr Hr0. destruct (Hnew r Hr) as [Hnot _].
    rewrite lookup_insert_ne by (intros ->; done). by apply Hframe.
  - intros r r0 a Hr Hr0. destruct (Hnew r Hr) as [Hnot _].
    apply lookup_insert_ne. by intros ->.
Qed.

Lemma slice_singleton {A} (l : list A) (k : nat) (x : A) :
  l !! k = Some x -> Py.slice l (Z.of_nat k) (Z.of_nat k + 1) = [x].
Proof.
  intros Hk. rewrite slice_take_drop by lia.
  replace (Z.to_nat (Z.of_nat k + 1 - Z.of_nat k)) with 1%nat by lia.
  rewrite Nat2Z.id. apply list_eq. intros [|i].
  - rewrite lookup_take_lt by lia. rewrite lookup_drop.
    by rewrite Nat.add_0_r.
  - by rewrite lookup_take_ge by lia.
Qed.

Lemma chained_bounds (ivs : list (Z * Z)) (iv0 ivl : Z * Z) :
  chained ivs = true -> head ivs = Some iv0 -> last ivs = Some ivl ->
  Forall (fun iv => iv0.1 <= iv.1 /\ iv.1 <= iv.2 /\ iv.2 <= ivl.2) ivs.
Proof.
  revert iv0. induction ivs as [|iv rest IH]; intros iv0 Hch Hhd Hlast; [done|].
  injection Hhd as ->. cbn [chained] in Hch.
  apply andb_true_iff in Hch as [Hch Hrest].
  apply andb_true_iff in Hch as [Hord Hnext].
  destruct rest as [|iv' rest].
  - injection Hlast as <-. constructor; [lia|done].
  - specialize (IH iv' Hrest eq_refl Hlast).
    pose proof (Forall_inv IH) as Hiv'. cbn beta in Hiv'.
    constructor; [lia|].
    eapply Forall_impl; [exact IH|]. intros x Hx. cbn beta in Hx. lia.
Qed.

Lemma wrap64_sub (a d : Z) :
  0 <= d <= a -> int64 a -> wrap64 (a - d) = a - d.
Proof. intros Hd Ha. apply wrap64_id. unfold int64 in *. lia. Qed.

Lemma frame_typed_spec (f : frame) :
  frame_typed f = true ->
  int64 (agent_index_interval f).1 /\ int64 (agent_index_interval f).2 /\
  int64 (traffic_light_faces_index_interval f).1 /\
  int64 (traffic_light_faces_index_interval f).2.
Proof.
  unfold frame_typed, interval_typed.
  rewrite !andb_true_iff, !int64b_spec. tauto.
Qed.

Lemma rebase_shift (da dt : Z) (f : frame) :
  frame_typed f = true ->
  0 <= da <= (agent_index_interval f).1 ->
  (agent_index_interval f).1 <= (agent_index_interval f).2 ->
  0 <= dt <= (traffic_light_faces_index_interval f).1 ->
  (traffic_light_faces_index_interval f).1
  <= (traffic_light_faces_index_interval f).2 ->
  rebase_tl_faces dt (rebase_agents da f) = shift_frame da dt f.
Proof.
  intros (Hi1 & Hi2 & Hi3 & Hi4)%frame_typed_spec Ha1 Ha2 Ht1 Ht2.
  unfold rebase_tl_faces, rebase_agents, shift_frame, isub_interval.
  cbn [timestamp agent_index_interval traffic_light_faces_index_interval ego_pose fst snd].
  by rewrite !wrap64_sub by (done || lia).
Qed.

Lemma contiguous_bounds (get : frame -> Z * Z) (window : list frame)
    (f0 fl : frame) :
  contiguous_intervals (get <$> window) = true ->
  head window = Some f0 -> last window = Some fl ->
  0 <= (get f0).1 /\
  Forall (fun f => (get f0).1 <= (get f).1 /\ (get f).1 <= (get f).2 /\
                   (get f).2 <= (get fl).2) window.
Proof.
  intros Hc Hhd Hlast. unfold contiguous_intervals in Hc.
  apply andb_true_iff in Hc as [Hstart Hch].
  destruct window as [|f w]; [done|]. injection Hhd as ->.
  split; [cbn in Hstart; lia|].
  pose proof (chained_bounds (get <$> f0 :: w) (get f0) (get fl) Hch eq_refl) as Hb.
  rewrite fmap_last, Hlast in Hb. specialize (Hb eq_refl).
  by apply Forall_fmap in Hb.
Qed.

Lemma zero_based_length (window : list frame) :
  length (zero_based window) = length window.
Proof. destruct window; [done|]. unfold zero_based. by rewrite length_fmap. Qed.

(** Under the contiguity precondition, the two in-place rebasings of the
    copied frames make the window zero-based, without wrap-around. *)
Lemma rebase_zero_based (window : list frame) (f0 fl : frame) :
  head window = Some f0 -> last window = Some fl ->
  Forall (fun f => frame_typed f = true) window ->
  contiguous_intervals (agent_index_interval <$> window) = true ->
  contiguous_intervals (traffic_light_faces_index_interval <$> window) = true ->
  rebase_tl_faces (traffic_light_faces_index_interval f0).1
    <$> (rebase_agents (agent_index_interval f0).1 <$> window)
  = zero_based window.
Proof.
  intros Hhd Hlast Htyped Hag Htl.
  destruct (contiguous_bounds agent_index_interval _ _ _ Hag Hhd Hlast) as [Ha0 Ha].
  destruct (contiguous_bounds traffic_light_faces_index_interval _ _ _ Htl Hhd Hlast)
    as [Ht0 Ht].
  destruct window as [|f w]; [done|]. injection Hhd as ->.
  unfold zero_based. rewrite <- list_fmap_compose.
  apply Forall_fmap_ext_1.
  rewrite Forall_forall in Htyped, Ha, Ht. apply Forall_forall. intros f Hf.
  specialize (Htyped f Hf). specialize (Ha f Hf). specialize (Ht f Hf).
  cbn beta in *. unfold compose. apply rebase_shift; [done|lia..].
Qed.

(** The extracted arrays show every frame of the window what the source
    arrays show it. *)
Lemma zero_based_views {A T} (agents_ : list A) (tl_faces_ : list T)
    (window : list frame) (f0 fl : frame) :
  head window = Some f0 -> last window = Some fl ->
  contiguous_intervals (agent_index_interval <$> window) = true ->
  contiguous_intervals (traffic_light_faces_index_interval <$> window) = true ->
  frame_view
    (Py.slice agents_ (agent_index_interval f0).1 (agent_index_interval fl).2)
    (Py.slice tl_faces_ (traffic_light_faces_index_interval f0).1
       (traffic_light_faces_index_interval fl).2)
    <$> zero_based window
  = frame_view agents_ tl_faces_ <$> window.
Proof.
  intros Hhd Hlast Hag Htl.
  destruct (contiguous_bounds agent_index_interval _ _ _ Hag Hhd Hlast) as [Ha0 Ha].
  destruct (contiguous_bounds traffic_light_faces_index_interval _ _ _ Htl Hhd Hlast)
    as [Ht0 Ht].
  destruct window as [|f w]; [done|]. injection Hhd as ->.
  unfold zero_based. rewrite <- list_fmap_compose.
  apply Forall_fmap_ext_1.
  rewrite Forall_forall in Ha, Ht. apply Forall_forall. intros f Hf.
  specialize (Ha f Hf). specialize (Ht f Hf). cbn beta in *.
  unfold compose, frame_view, shift_frame.
  cbn [timestamp agent_index_interval traffic_light_faces_index_interval ego_pose fst snd].
  by rewrite !slice_slice by lia.
Qed.

(** C6. For a scene [k] whose agent and traffic-light-face intervals are
    contiguous across its frames, [get_scene_dataset(k)] returns a dataset
    whose [get_frame(0, j)] is, for every in-scene offset [j], the example
    [get_frame(k, j)] of the original dataset, field for field, timestamp
    included; the extracted scene record has the frame interval
    [(0, e - s)] and the extracted frames have their intervals relative to
    where those of the first frame start.  The sample generator is taken
    to read the agent and face arrays through the frame intervals only. *)
Theorem scene_copy_same_frames h self (k : nat) (j : Z)
    (track_id : option Z) (sc : scene) :
  let src := dataset self in
  let s := (frame_index_interval sc).1 in
  let e := (frame_index_interval sc).2 in
  let window := Py.slice (frames_of h (frames src)) s e in
  sample_local ->
  scenes_of h (scenes src) !! k = Some sc ->
  scene_typed sc = true ->
  0 <= s -> e <= Py.len (frames_of h (frames src)) ->
  Forall (fun f => frame_typed f = true) window ->
  contiguous_intervals (agent_index_interval <$> window) = true ->
  contiguous_intervals (traffic_light_faces_index_interval <$> window) = true ->
  0 <= j < e - s ->
  exists self' h',
    get_scene_dataset h self (Z.of_nat k) = Ok (self', h') /\
    get_frame h' self' 0 j track_id = get_frame h self (Z.of_nat k) j track_id /\
    scenes_of h' (scenes (dataset self')) = [Scene (0, e - s) (scene_rest sc)] /\
    frames_of h' (frames (dataset self')) = zero_based window.
Proof.
  intros src s e window Hlocal Hk Hsct Hs He Htyped Hag Htl Hj.
  assert (Py.len window = e - s) as Hlen by (apply slice_length; lia).
  destruct window as [|f0 w] eqn:Hw; [unfold Py.len in Hlen; simpl in Hlen; lia|].
  rewrite <- Hw in *.
  assert (Py.getitem window 0 = Ok f0) as Hf0 by (by rewrite Hw).
  destruct (getitem_last_of_first _ _ Hf0) as (fl & Hfl & Hlast).
  assert (Py.getitem (Py.slice (scenes_of h (scenes src)) (Z.of_nat k) (Z.of_nat k + 1)) 0
          = Ok sc) as Hsc by (by rewrite (slice_singleton _ _ _ Hk)).
  destruct (get_scene_dataset_run h self (Z.of_nat k) sc f0 fl Hsc Hf0 Hfl)
    as (r1 & r2 & r3 & r4 & h' & Hrun & _ & _ & _ & _ & Hs' & Hf' & Ha' & Ht').
  fold src s e window in Hs', Hf', Ha', Ht'.
  assert (head window = Some f0) as Hhd by (by rewrite Hw).
  assert (int64 e) as Hie.
  { unfold scene_typed, interval_typed in Hsct.
    apply andb_true_iff in Hsct as [_ Hsct]. by apply int64b_spec. }
  assert (scenes_of h' r1 = [Scene (0, e - s) (scene_rest sc)]) as Hscene.
  { rewrite Hs', (slice_singleton _ _ _ Hk). cbn [fmap list_fmap].
    unfold rebase_frames, isub_interval. fold s e.
    rewrite Z.sub_diag, wrap64_sub by (done || lia). done. }
  assert (frames_of h' r2 = zero_based window) as Hzero
    by (rewrite Hf'; by apply (rebase_zero_based window f0 fl)).
  exists {| cfg := cfg self;
            dataset := {| scenes := r1; frames := r2; agents := r3; tl_faces := r4 |};
            rasterizer := rasterizer self;
            perturbation := perturbation self |}, h'.
  split; [done|]. split; [|done].
  assert (Py.len (zero_based window) = e - s) as Hzlen
    by (unfold Py.len in *; rewrite zero_based_length; done).
  destruct (getitem_nonneg window j) as (fj & Hfj & _); [lia|].
  assert (frames_of h (frames src) !! Z.to_nat (s + j) = Some fj) as Hsrc.
  { rewrite <- Hfj. unfold window. rewrite slice_lookup by lia.
    f_equal. lia. }
  assert (exists fj', zero_based window !! Z.to_nat j = Some fj' /\
                      timestamp fj' = timestamp fj) as (fj' & Hfj' & Hts).
  { rewrite Hw. unfold zero_based. rewrite <- Hw.
    rewrite list_lookup_fmap, Hfj. by eexists. }
  unfold get_frame. cbn [cfg dataset rasterizer perturbation scenes frames agents tl_faces].
  fold src. rewrite Hscene, (getitem_lookup _ _ _ Hk).
  change (Py.getitem [Scene (0, e - s) (scene_rest sc)] 0)
    with (Ok (Scene (0, e - s) (scene_rest sc))).
  cbn [mbind result_bind frame_index_interval fst snd].
  fold src s e window.
  rewrite Hzero, Ha', Ht'. rewrite <- Hzlen at 1. rewrite slice_all.
  unfold sample_function. cbn [cfg rasterizer perturbation].
  rewrite (Hlocal _ _ _ _ _ _ _ _ _ _ _ _
             (zero_based_views _ _ window f0 fl Hhd Hlast Hag Htl)).
  destruct (generate_agent_sample _ _ _ _ _ _ _ _ _) as [data|err]; [|done].
  cbn [mbind result_bind].
  unfold frenet_targets. cbn [rasterizer].
  match goal with
  | |- (?t ≫= _) = (?t ≫= _) => destruct t as [targets|err]; [|done]
  end.
  cbn [mbind result_bind].
  destruct (getitem_nonneg (zero_based window) (0 + j)) as (y & Hy & ->); [lia|].
  destruct (getitem_nonneg (frames_of h (frames src)) (s + j)) as (z & Hz & ->); [lia|].
  rewrite Z.add_0_l in Hy. simplify_eq. cbn [mbind result_bind].
  by rewrite Hts.
Qed.
End Extraction.

(** * The two-scene store, worked out *)

Lemma toy_sample_local : @sample_local toy.
Proof.
  intros rp mp rast pert state_index track_id f1 f2 a1 a2 t1 t2 Hview.
  cbn [generate_agent_sample toy toy_with]. unfold toy_sample.
  change (@frame_view Z Z a1 t1 <$> f1 = @frame_view Z Z a2 t2 <$> f2) in Hview.
  by rewrite Hview.
Qed.

Lemma toy_cumulative_sizes (frenet : option bool) :
  cumulative_sizes toy_heap (toy_dataset frenet) = [3; 5].
Proof. reflexivity. Qed.

Lemma toy_scenes_contiguous : scenes_contiguous toy_scenes.
Proof.
  intros k sc Hk. destruct k as [|[|k]]; simpl in Hk; by simplify_eq.
Qed.

(** The end-to-end scenario of the specification on cumulative sizes
    [3; 5]. *)
Example toy_resolve :
  resolve toy_heap (toy_dataset None) <$> [0; 2; 3; 4; -1; -6]
  = [Ok (0, 0); Ok (0, 2); Ok (1, 0); Ok (1, 1); Ok (1, 1); Err ValueError].
Proof. reflexivity. Qed.

Example toy_getitem_past_end :
  __getitem__ toy_heap (toy_dataset (Some false)) 5 = Err IndexError.
Proof. reflexivity. Qed.

Lemma resolve_flat_index_roundtrip_witness :
  0 <= 3 < __len__ toy_heap (toy_dataset None) /\
  exists si,
    resolve toy_heap (toy_dataset None) 3 = Ok si /\
    si.1 = Py.bisect_right (cumulative_sizes toy_heap (toy_dataset None)) 3 /\
    flat_index (cumulative_sizes toy_heap (toy_dataset None)) si = Ok 3.
Proof.
  assert (0 <= 3 < __len__ toy_heap (toy_dataset None)) as Hi
    by (vm_compute; split; [discriminate|reflexivity]).
  split; [exact Hi|].
  exact (resolve_flat_index_roundtrip (H:=toy) toy_heap (toy_dataset None) 3 Hi).
Defined.

Lemma resolve_scene_of_index_witness :
  (forall i, 0 <= i -> 3 <= i < 5 ->
     resolve toy_heap (toy_dataset None) i = Ok (1, i - 3)) /\
  (0 <= 3 < 5 -> resolve toy_heap (toy_dataset None) 3 = Ok (1, 0)).
Proof.
  apply (resolve_scene_of_index (H:=toy) toy_heap (toy_dataset None) 1 5).
  - rewrite toy_cumulative_sizes. repeat constructor; lia.
  - reflexivity.
Defined.

Lemma getitem_negative_index_witness :
  -1 < 0 /\
  resolve toy_heap (toy_dataset None) (-1) = resolve toy_heap (toy_dataset None) 4.
Proof.
  split; [lia|].
  destruct (getitem_negative_index (H:=toy) toy_heap (toy_dataset None) (-1)) as (_ & _ & Hok);
    [lia|].
  destruct Hok as (_ & Hres & _).
  - vm_compute. discriminate.
  - exact Hres.
Defined.

Lemma get_scene_indices_range_witness :
  get_scene_indices toy_heap (toy_dataset None) 1 = Ok (Py.arange 3 5) /\
  get_scene_indices toy_heap (toy_dataset None) 2 = Err AssertionError.
Proof.
  destruct (get_scene_indices_range (H:=toy) toy_heap (toy_dataset None) 1 5)
    as (Hrange & _ & Hfail).
  - exact toy_scenes_contiguous.
  - reflexivity.
  - split; [exact Hrange | exact Hfail].
Defined.

Lemma negative_index_lookups_witness :
  -1 < 0 /\
  get_frame_indices toy_heap (toy_dataset None) (-1) = Ok [-1] /\
  exists sc,
    toy_scenes !! 1%nat = Some sc /\
    get_scene_indices toy_heap (toy_dataset None) (-1)
    = Ok (Py.arange (frame_index_interval sc).1 (frame_index_interval sc).2).
Proof.
  split; [lia|].
  destruct (negative_index_lookups (H:=toy) toy_heap (toy_dataset None) (-1))
    as (Hscene & _ & Hframe & _); [lia|].
  split; [apply Hframe; lia|].
  apply Hscene. vm_compute. discriminate.
Defined.

(** C10, as stated, fails: scene index -3 on two scenes passes the
    assertion and the scene lookup raises. *)
Lemma get_scene_indices_below_range :
  -3 < 0 /\
  get_scene_indices toy_heap (toy_dataset None) (-3) = Err IndexError /\
  is_ok (get_scene_indices toy_heap (toy_dataset None) (-3)) = false.
Proof. split; [lia|]. split; reflexivity. Qed.

(** For a negative frame index nothing is looked up: the argument comes
    back as it is. *)
Example get_frame_indices_negative :
  get_frame_indices toy_heap (toy_dataset None) (-7) = Ok [-7].
Proof. reflexivity. Qed.

Lemma get_frame_track_id_witness :
  exists ex,
    get_frame toy_heap (toy_dataset (Some false)) 1 1 (Some 42) = Ok ex /\
    out_track_id ex = 42 /\ int64 (out_track_id ex).
Proof.
  eexists. split; [vm_compute; reflexivity|].
  apply (get_frame_track_id (H:=toy) toy_heap (toy_dataset (Some false)) 1 1 (Some 42)).
  vm_compute. reflexivity.
Defined.

Example get_frame_ego_track_id :
  exists ex,
    get_frame toy_heap (toy_dataset (Some false)) 0 2 None = Ok ex /\
    out_track_id ex = -1 /\ out_timestamp ex = 102.
Proof. eexists. split; [vm_compute; reflexivity|]. split; reflexivity. Qed.

Lemma get_frame_frenet_hard_error_witness :
  get_frame (H:=toy_with linalg_inv zero3) toy_heap
    (toy_dataset_with linalg_inv zero3 None) 1 1 None = Err LinAlgError.
Proof.
  edestruct (get_frame_frenet_hard_error (H:=toy_with linalg_inv zero3) toy_heap
               (toy_dataset_with linalg_inv zero3 None) 1 1 None) as [Herr _].
  - reflexivity.
  - vm_compute. reflexivity.
  - vm_compute. reflexivity.
  - apply Herr. reflexivity.
Defined.

(** A 2x2 raster transform is inverted and stopped by the shape check. *)
Example get_frame_frenet_shape_check :
  get_frame (H:=toy_with linalg_inv identity2) toy_heap
    (toy_dataset_with linalg_inv identity2 None) 1 1 None = Err AssertionError.
Proof. reflexivity. Qed.

Lemma toy_get_scene_dataset :
  get_scene_dataset toy_heap (toy_dataset None) 1 = Ok toy_copy.
Proof. reflexivity. Qed.

Lemma get_scene_dataset_isolated_witness :
  get_scene_dataset toy_heap (toy_dataset None) 1 = Ok toy_copy /\
  (forall r, r ∈ dom toy_heap -> toy_copy.2 !! r = toy_heap !! r) /\
  NoDup (refs (dataset toy_copy.1)).
Proof.
  destruct (get_scene_dataset_isolated (H:=toy) toy_heap (toy_dataset None) 1
              toy_copy.1 toy_copy.2 toy_get_scene_dataset)
    as (Hframe & _ & _ & Hnd & _).
  split; [exact toy_get_scene_dataset|].
  split; [exact Hframe | exact Hnd].
Defined.

Lemma scene_copy_same_frames_witness :
  exists self' h',
    get_scene_dataset toy_heap (toy_dataset None) 1 = Ok (self', h') /\
    get_frame h' self' 0 1 (Some 42)
    = get_frame toy_heap (toy_dataset None) 1 1 (Some 42) /\
    scenes_of h' (scenes (dataset self')) = [Scene (0, 2) [8]] /\
    frames_of h' (frames (dataset self'))
    = [Frame 103 (0, 1) (0, 2) []; Frame 104 (1, 3) (2, 2) []].
Proof.
  destruct (scene_copy_same_frames (H:=toy) toy_heap (toy_dataset None) 1 1 (Some 42)
              (Scene (3, 5) [8]))
    as (self' & h' & Hrun & Hget & Hscenes & Hframes).
  - exact toy_sample_local.
  - reflexivity.
  - reflexivity.
  - discriminate.
  - discriminate.
  - repeat constructor.
  - reflexivity.
  - reflexivity.
  - split; [discriminate|reflexivity].
  - exists self', h'.
    split; [exact Hrun|]. split; [exact Hget|].
    split; [exact Hscenes | exact Hframes].
Defined.

(** * Index resolution, continued *)

Section ResolveMore.
Context `{Collaborators}.
Implicit Types (h : heap) (self : EgoDataset).

Lemma cumulative_sizes_len h self :
  Py.len (cumulative_sizes h self) = Py.len (scenes_of h (scenes (dataset self))).
Proof. unfold cumulative_sizes, Py.len. by rewrite length_fmap. Qed.

(** When no element exceeds [x], every comparison of the loop moves [lo]:
    the bisection ends at [hi]. *)
Lemma bisect_loop_all_le (fuel : nat) (a : list Z) (x lo hi : Z) :
  Forall (fun c => c <= x) a ->
  0 <= lo <= hi -> hi <= Py.len a -> hi - lo <= Z.of_nat fuel ->
  Py.bisect_loop fuel a x lo hi = hi.
Proof.
  intros Hall. revert lo hi.
  induction fuel as [|fuel IH]; intros lo hi Hb Hlen Hfuel; simpl; [lia|].
  destruct (Z.ltb_spec lo hi) as [Hlt|Hge]; [|lia].
  assert (lo <= (lo + hi) `div` 2 < hi) as Hmid
    by (Z.div_mod_to_equations; lia).
  destruct (lookup_lt_is_Some_2 a (Z.to_nat ((lo + hi) `div` 2))) as [m Hm].
  { unfold Py.len in Hlen. lia. }
  rewrite Hm. simpl.
  rewrite Forall_lookup in Hall. specialize (Hall _ _ Hm).
  destruct (Z.ltb_spec x m) as [Hx|Hx]; [lia|].
  apply IH; lia.
Qed.

Lemma bisect_right_all_le (a : list Z) (x : Z) :
  Forall (fun c => c <= x) a -> Py.bisect_right a x = Py.len a.
Proof.
  intros Hall. unfold Py.bisect_right.
  apply bisect_loop_all_le; [done| | |]; pose proof (len_nonneg a);
    unfold Py.len in *; lia.
Qed.

(** X1. An index at or past every cumulative size is not stopped by the
    range check of [__getitem__], which only looks at negative indices: it
    resolves to the scene index [len(scenes)] and the lookup of that scene
    in [get_frame] raises [IndexError]. *)
Theorem getitem_past_end h self (i : Z) :
  0 <= i ->
  Forall (fun c => c <= i) (cumulative_sizes h self) ->
  (exists off,
     resolve h self i
     = Ok (Py.len (scenes_of h (scenes (dataset self))), off)) /\
  __getitem__ h self i = Err IndexError.
Proof.
  intros Hi Hall.
  destruct (resolve_nonneg h self i Hi) as (off & Hres & _).
  rewrite (bisect_right_all_le _ _ Hall), cumulative_sizes_len in Hres.
  split; [by exists off|].
  unfold __getitem__. rewrite Hres. cbn [mbind result_bind fst snd].
  unfold get_frame. rewrite getitem_out_of_range by lia. done.
Qed.

(** What [resolve] returns on an index inside scene [k]. *)
Lemma resolve_at_scene h self (k : nat) (hi i : Z) :
  StronglySorted Z.le (cumulative_sizes h self) ->
  cumulative_sizes h self !! k = Some hi ->
  0 <= i -> scene_start (cumulative_sizes h self) k <= i < hi ->
  resolve h self i = Ok (Z.of_nat k, i - scene_start (cumulative_sizes h self) k).
Proof.
  intros Hs Hk Hi Hrange.
  pose proof (bisect_right_scene _ i k hi Hs Hk Hrange) as Hb.
  unfold resolve. replace (i <? 0) with false by lia.
  cbn [mbind result_bind]. rewrite Hb.
  destruct k as [|k].
  - cbn [scene_start]. by rewrite Z.sub_0_r.
  - destruct (Z.eqb_spec (Z.of_nat (S k)) 0) as [|_]; [lia|].
    replace (Z.of_nat (S k) - 1) with (Z.of_nat k) by lia.
    destruct (lookup_lt_is_Some_2 (cumulative_sizes h self) k) as [c Hc].
    { apply lookup_lt_Some in Hk. lia. }
    cbn [scene_start]. by rewrite (getitem_lookup _ _ _ Hc), Hc.
Qed.

(** On sorted cumulative sizes, an index below the last one lies in the
    interval of exactly the scene right bisection returns. *)
Lemma bisect_right_covers (a : list Z) (x total : Z) :
  StronglySorted Z.le a -> last a = Some total -> 0 <= x < total ->
  exists (k : nat) hi,
    Py.bisect_right a x = Z.of_nat k /\ a !! k = Some hi /\
    scene_start a k <= x < hi.
Proof.
  intros Hs Hlast Hx.
  destruct (bisect_right_sorted a x Hs) as [Hl Hr].
  pose proof (bisect_right_range a x) as Hrange.
  rewrite last_lookup in Hlast.
  pose proof (lookup_lt_Some _ _ _ Hlast) as Hlen.
  assert (Py.bisect_right a x < Py.len a) as Hlt.
  { destruct (Z.lt_ge_cases (Py.bisect_right a x) (Py.len a)) as [|Hge]; [done|].
    assert (Z.of_nat (Nat.pred (length a)) < Py.bisect_right a x) as Hp
      by (unfold Py.len in Hge; lia).
    specialize (Hl _ _ Hp Hlast). lia. }
  destruct (lookup_lt_is_Some_2 a (Z.to_nat (Py.bisect_right a x))) as [hi Hhi].
  { unfold Py.len in Hlt. lia. }
  exists (Z.to_nat (Py.bisect_right a x)), hi.
  split; [lia|]. split; [done|]. split.
  - destruct (Z.to_nat (Py.bisect_right a x)) as [|k] eqn:Hk; [simpl; lia|].
    simpl. destruct (lookup_lt_is_Some_2 a k) as [c Hc].
    { apply lookup_lt_Some in Hhi. lia. }
    rewrite Hc. simpl. apply (Hl k c); [lia|done].
  - apply (Hr (Z.to_nat (Py.bisect_right a x)) hi); [lia|done].
Qed.

(** X2. On a store whose scene intervals tile the frame sequence in
    non-decreasing order, every flat index below the last cumulative size
    resolves to an existing scene and to an offset inside the frame
    interval of that scene. *)
Theorem resolve_inside_scene h self (i total : Z) :
  StronglySorted Z.le (cumulative_sizes h self) ->
  scenes_contiguous (scenes_of h (scenes (dataset self))) ->
  last (cumulative_sizes h self) = Some total ->
  0 <= i < total ->
  exists (k : nat) sc off,
    resolve h self i = Ok (Z.of_nat k, off) /\
    scenes_of h (scenes (dataset self)) !! k = Some sc /\
    (frame_index_interval sc).1 + off = i /\
    0 <= off < (frame_index_interval sc).2 - (frame_index_interval sc).1.
Proof.
  intros Hs Hc Hlast Hi.
  destruct (bisect_right_covers _ _ _ Hs Hlast Hi) as (k & hi & _ & Hk & Hrange).
  pose proof (resolve_at_scene h self k hi i Hs Hk ltac:(lia) Hrange) as Hres.
  unfold cumulative_sizes in Hk. rewrite list_lookup_fmap in Hk.
  destruct (scenes_of h (scenes (dataset self)) !! k) as [sc|] eqn:Hsc; [|done].
  injection Hk as Hhi. specialize (Hc k sc Hsc).
  fold (cumulative_sizes h self) in Hc.
  exists k, sc, (i - scene_start (cumulative_sizes h self) k).
  split; [done|]. split; [done|]. lia.
Qed.



End ResolveMore.

(** * Scene index ranges *)

Section IndicesMore.
Context `{Collaborators}.
Implicit Types (h : heap) (self : EgoDataset).

(** X3. The indices [get_scene_indices(k)] returns are indices for
    [__getitem__]: on sorted, tiling scene intervals each of them resolves
    to scene [k], at its distance from the start of the scene. *)
Theorem scene_indices_resolve h self (k : nat) (sc : scene) :
  StronglySorted Z.le (cumulative_sizes h self) ->
  scenes_contiguous (scenes_of h (scenes (dataset self))) ->
  scenes_of h (scenes (dataset self)) !! k = Some sc ->
  0 <= (frame_index_interval sc).1 ->
  exists l,
    get_scene_indices h self (Z.of_nat k) = Ok l /\
    forall x, x ∈ l ->
      resolve h self x = Ok (Z.of_nat k, x - (frame_index_interval sc).1) /\
      __getitem__ h self x
      = get_frame h self (Z.of_nat k) (x - (frame_index_interval sc).1) None.
Proof.
  intros Hs Hc Hk Hstart. eexists. split; [by apply get_scene_indices_at|].
  intros x Hx%elem_of_arange.
  assert (cumulative_sizes h self !! k = Some (frame_index_interval sc).2) as Hhi
    by (unfold cumulative_sizes; by rewrite list_lookup_fmap, Hk).
  specialize (Hc k sc Hk). fold (cumulative_sizes h self) in Hc.
  assert (resolve h self x = Ok (Z.of_nat k, x - (frame_index_interval sc).1)) as Hres.
  { rewrite Hc. apply (resolve_at_scene h self k _ x Hs Hhi); lia. }
  split; [done|]. unfold __getitem__. by rewrite Hres.
Qed.

Lemma arange_app (a b c : Z) :
  a <= b <= c -> Py.arange a b ++ Py.arange b c = Py.arange a c.
Proof.
  intros Hb. apply list_eq. intros i.
  assert (length (Py.arange a b) = Z.to_nat (b - a)) as Hlen
    by (unfold Py.arange; by rewrite length_fmap, length_seq).
  destruct (decide (Z.of_nat i < b - a)) as [Hi|Hi].
  - rewrite lookup_app_l by lia. by rewrite !arange_lookup by lia.
  - rewrite lookup_app_r by lia. rewrite Hlen.
    destruct (decide (Z.of_nat i < c - a)) as [Hi'|Hi'].
    + rewrite !arange_lookup by lia. f_equal. lia.
    + unfold Py.arange. rewrite !list_lookup_fmap, !lookup_seq_ge by lia. done.
Qed.

(** One tile after the other enumerates the integers they span. *)
Lemma tiles_concat (a : Z) (l : list scene) :
  tiles a l ->
  concat ((fun sc => Py.arange (frame_index_interval sc).1 (frame_index_interval sc).2)
            <$> l)
  = Py.arange a (default a (last ((fun sc => (frame_index_interval sc).2) <$> l))) /\
  a <= default a (last ((fun sc => (frame_index_interval sc).2) <$> l)).
Proof.
  revert a. induction l as [|sc l IH]; intros a Ht.
  - cbn [fmap list_fmap concat last default]. split; [|lia].
    unfold Py.arange. rewrite Z.sub_diag. reflexivity.
  - destruct Ht as (Hstart & Hord & Ht). destruct (IH _ Ht) as [IHc IHle].
    rewrite fmap_cons. cbn [concat]. rewrite IHc. rewrite Hstart in *.
    assert (default a
              (last ((fun sc0 => (frame_index_interval sc0).2) <$> sc :: l))
            = default (frame_index_interval sc).2
                (last ((fun sc0 => (frame_index_interval sc0).2) <$> l))) as ->.
    { rewrite fmap_cons. destruct l as [|sc' l]; [done|].
      rewrite fmap_cons, last_cons_cons.
      destruct (last _) eqn:Hl; [done|]. by apply last_None in Hl. }
    split; [|lia]. apply arange_app. lia.
Qed.

Lemma traverse_seq {A B} (f : Z -> result B) (g : A -> B) (l : list A) (i : nat) :
  (forall (j : nat) x, l !! j = Some x -> f (Z.of_nat (i + j)) = Ok (g x)) ->
  traverse f (Z.of_nat <$> seq i (length l)) = Ok (g <$> l).
Proof.
  revert i. induction l as [|x l IH]; intros i Hf; [done|].
  cbn [length seq]. rewrite fmap_cons. cbn [traverse].
  pose proof (Hf O x eq_refl) as Hx. rewrite Nat.add_0_r in Hx. rewrite Hx.
  cbn [mbind result_bind]. rewrite (IH (S i)); [done|].
  intros j y Hj. rewrite <- (Hf (S j) y Hj). f_equal. lia.
Qed.

(** Tiling from [a] in its index form, with the order of the ends. *)
Lemma tiles_lookup (a : Z) (l : list scene) :
  tiles a l ->
  (forall (k : nat) sc,
     l !! k = Some sc ->
     (frame_index_interval sc).1
     = match k with
       | O => a
       | S k' => default 0 (((fun s => (frame_index_interval s).2) <$> l) !! k')
       end) /\
  StronglySorted Z.le ((fun s => (frame_index_interval s).2) <$> l) /\
  Forall (fun c => a <= c) ((fun s => (frame_index_interval s).2) <$> l).
Proof.
  revert a. induction l as [|sc l IH]; intros a Ht.
  - split; [done|]. split; constructor.
  - destruct Ht as (Hstart & Hord & Ht).
    destruct (IH _ Ht) as (IHk & IHs & IHa).
    rewrite fmap_cons. split; [|split].
    + intros [|k] sc' Hk.
      * by injection Hk as <-.
      * rewrite (IHk k sc' Hk). by destruct k.
    + constructor; [done|]. eapply Forall_impl; [exact IHa|]. done.
    + constructor; [lia|]. eapply Forall_impl; [exact IHa|].
      intros c Hc. cbn beta in Hc. lia.
Qed.

Lemma tiles_contiguous (l : list scene) :
  tiles 0 l ->
  scenes_contiguous l /\
  StronglySorted Z.le ((fun s => (frame_index_interval s).2) <$> l).
Proof.
  intros Ht. destruct (tiles_lookup 0 l Ht) as (Hk & Hs & _).
  split; [|done]. intros k sc Hsc. rewrite (Hk k sc Hsc). by destruct k.
Qed.

(** X4. When the scene intervals tile the frame sequence from 0, the
    index ranges of the scenes, taken in scene order, enumerate every flat
    index below the last cumulative size once, in increasing order. *)
Theorem scene_indices_partition h self :
  tiles 0 (scenes_of h (scenes (dataset self))) ->
  exists ls,
    traverse (get_scene_indices h self)
      (Z.of_nat <$> seq 0 (length (scenes_of h (scenes (dataset self))))) = Ok ls /\
    concat ls = Py.arange 0 (default 0 (last (cumulative_sizes h self))).
Proof.
  intros Ht.
  exists ((fun sc => Py.arange (frame_index_interval sc).1 (frame_index_interval sc).2)
            <$> scenes_of h (scenes (dataset self))).
  split.
  - apply traverse_seq. intros j sc Hj. by apply get_scene_indices_at.
  - by destruct (tiles_concat 0 _ Ht) as [-> _].
Qed.

End IndicesMore.

(** * Scene extraction, continued *)

Section ExtractionMore.
Context `{Collaborators}.
Implicit Types (h : heap) (self : EgoDataset) (r : ref).

Lemma slice_empty {A} (l : list A) (lo hi : Z) :
  Py.clamp (Py.len l) hi <= Py.clamp (Py.len l) lo -> Py.slice l lo hi = [].
Proof.
  intros Hle. unfold Py.slice.
  replace (Z.to_nat _) with O by lia. apply take_0.
Qed.

(** [l[-1:0]] is empty, and so is [l[k:k+1]] outside [-len <= k < len]. *)
Lemma slice_one_empty {A} (l : list A) (k : Z) :
  k = -1 \/ Py.len l <= k \/ k < - Py.len l -> Py.slice l k (k + 1) = [].
Proof.
  intros Hk. pose proof (len_nonneg l). apply slice_empty. unfold Py.clamp.
  destruct (Z.ltb_spec k 0), (Z.ltb_spec (k + 1) 0); lia.
Qed.

Lemma slice_one_negative {A} (l : list A) (k : Z) :
  - Py.len l <= k < -1 ->
  Py.slice l k (k + 1) = Py.slice l (Py.len l + k) (Py.len l + k + 1).
Proof.
  intros Hk. unfold Py.slice, Py.clamp.
  destruct (Z.ltb_spec k 0), (Z.ltb_spec (k + 1) 0),
           (Z.ltb_spec (Py.len l + k) 0), (Z.ltb_spec (Py.len l + k + 1) 0);
    try lia.
  f_equal; [|f_equal]; lia.
Qed.

(** The scene index only enters the extraction through the slice of the
    scene array. *)
Lemma get_scene_dataset_slice h self (k k' : Z) :
  Py.slice (scenes_of h (scenes (dataset self))) k (k + 1)
  = Py.slice (scenes_of h (scenes (dataset self))) k' (k' + 1) ->
  get_scene_dataset h self k = get_scene_dataset h self k'.
Proof. intros Hs. unfold get_scene_dataset. by rewrite Hs. Qed.

Lemma get_scene_dataset_no_scene h self (k : Z) :
  Py.slice (scenes_of h (scenes (dataset self))) k (k + 1) = [] ->
  get_scene_dataset h self k = Err IndexError.
Proof.
  intros Hs. unfold get_scene_dataset. rewrite Hs.
  destruct (copy h _) as [r1 h1] eqn:Hc1.
  pose proof (copy_spec _ _ _ _ Hc1) as (_ & Hn1 & _).
  assert (scenes_of h1 r1 = []) as -> by (unfold scenes_of; by rewrite Hn1).
  done.
Qed.

Lemma get_scene_dataset_no_frame h self (k : Z) (sc : scene) :
  Py.getitem (Py.slice (scenes_of h (scenes (dataset self))) k (k + 1)) 0 = Ok sc ->
  Py.slice (frames_of h (frames (dataset self)))
    (frame_index_interval sc).1 (frame_index_interval sc).2 = [] ->
  get_scene_dataset h self k = Err IndexError.
Proof.
  intros Hsc Hw. unfold get_scene_dataset.
  destruct (copy h _) as [r1 h1] eqn:Hc1.
  pose proof (copy_spec _ _ _ _ Hc1) as (_ & Hn1 & _).
  assert (scenes_of h1 r1
          = Py.slice (scenes_of h (scenes (dataset self))) k (k + 1)) as ->
    by (unfold scenes_of at 1; by rewrite Hn1).
  rewrite Hsc. cbn [mbind result_bind].
  rewrite (frames_of_copy _ _ _ _ (frames (dataset self)) Hc1), Hw by done.
  destruct (copy h1 _) as [r2 h2] eqn:Hc2.
  pose proof (copy_spec _ _ _ _ Hc2) as (_ & Hn2 & _).
  assert (frames_of h2 r2 = []) as -> by (unfold frames_of; by rewrite Hn2).
  done.
Qed.

(** X5. Negative scene indices of [get_scene_dataset] go through the
    slice [scenes[k : k + 1]]: for [-len(scenes) <= k <= -2] the call is
    the one at the end-relative position [len(scenes) + k], but
    [scenes[-1 : 0]] is empty, so that index -1 never reaches the last
    scene and always fails with [IndexError]. *)
Theorem get_scene_dataset_negative h self (k : Z) :
  get_scene_dataset h self (-1) = Err IndexError /\
  (- Py.len (scenes_of h (scenes (dataset self))) <= k < -1 ->
   get_scene_dataset h self k
   = get_scene_dataset h self (Py.len (scenes_of h (scenes (dataset self))) + k)).
Proof.
  split.
  - apply get_scene_dataset_no_scene, slice_one_empty. by left.
  - intros Hk. by apply get_scene_dataset_slice, slice_one_negative.
Qed.

(** X6. [get_scene_dataset] has no bounds check of its own: a scene
    index at or above the scene count, or below its negation, fails with
    the [IndexError] of [scenes[0]] on an empty slice, and a scene whose
    frame interval [(s, e)] is empty, [0 <= e <= s], fails with the
    [IndexError] of [frames[0]]. *)
Theorem get_scene_dataset_index_errors h self :
  (forall k : Z,
     Py.len (scenes_of h (scenes (dataset self))) <= k \/
     k < - Py.len (scenes_of h (scenes (dataset self))) ->
     get_scene_dataset h self k = Err IndexError) /\
  (forall (k : nat) sc,
     scenes_of h (scenes (dataset self)) !! k = Some sc ->
     0 <= (frame_index_interval sc).2 <= (frame_index_interval sc).1 ->
     get_scene_dataset h self (Z.of_nat k) = Err IndexError).
Proof.
  split.
  - intros k Hk. apply get_scene_dataset_no_scene, slice_one_empty. tauto.
  - intros k sc Hk He.
    apply (get_scene_dataset_no_frame h self (Z.of_nat k) sc).
    + by rewrite (slice_singleton _ _ _ Hk).
    + apply slice_empty. unfold Py.clamp.
      pose proof (len_nonneg (frames_of h (frames (dataset self)))).
      destruct (Z.ltb_spec (frame_index_interval sc).1 0),
               (Z.ltb_spec (frame_index_interval sc).2 0); lia.
Qed.

(** Every query reaches the store through the four arrays of its own
    dataset. *)
Lemma queries_same_store h h' self :
  scenes_of h' (scenes (dataset self)) = scenes_of h (scenes (dataset self)) ->
  frames_of h' (frames (dataset self)) = frames_of h (frames (dataset self)) ->
  agents_of h' (agents (dataset self)) = agents_of h (agents (dataset self)) ->
  tl_faces_of h' (tl_faces (dataset self)) = tl_faces_of h (tl_faces (dataset self)) ->
  __len__ h' self = __len__ h self /\
  (forall si st tid, get_frame h' self si st tid = get_frame h self si st tid) /\
  (forall i, __getitem__ h' self i = __getitem__ h self i) /\
  (forall k, get_scene_indices h' self k = get_scene_indices h self k) /\
  (forall i, get_frame_indices h' self i = get_frame_indices h self i).
Proof.
  intros Hs Hf Ha Ht.
  assert (__len__ h' self = __len__ h self) as Hlen
    by (unfold __len__; by rewrite Hf).
  assert (forall si st tid, get_frame h' self si st tid = get_frame h self si st tid)
    as Hget by (intros; unfold get_frame; by rewrite Hs, Hf, Ha, Ht).
  assert (forall i, resolve h' self i = resolve h self i) as Hres
    by (intros; unfold resolve, cumulative_sizes; by rewrite Hlen, Hs).
  split; [done|]. split; [done|]. split; [|split].
  - intros i. unfold __getitem__. rewrite Hres.
    destruct (resolve h self i); [|done]. apply Hget.
  - intros k. unfold get_scene_indices. by rewrite Hs.
  - intros i. unfold get_frame_indices. by rewrite Hf.
Qed.

(** X7. After a successful extraction the source dataset answers every
    query as before: its length, [get_frame], [__getitem__] and the two
    index lookups are the same on the heap the extraction leaves. *)
Theorem get_scene_dataset_source_queries h self (k : Z) self' h' :
  get_scene_dataset h self k = Ok (self', h') ->
  allocated h (dataset self) ->
  __len__ h' self = __len__ h self /\
  (forall si st tid, get_frame h' self si st tid = get_frame h self si st tid) /\
  (forall i, __getitem__ h' self i = __getitem__ h self i) /\
  (forall j, get_scene_indices h' self j = get_scene_indices h self j) /\
  (forall i, get_frame_indices h' self i = get_frame_indices h self i).
Proof.
  intros Hget (Hs & Hf & Ha & Ht).
  destruct (get_scene_dataset_inv _ _ _ _ _ Hget) as (sc & f0 & fl & Hsc & Hf0 & Hfl).
  destruct (get_scene_dataset_run h self k sc f0 fl Hsc Hf0 Hfl)
    as (r1 & r2 & r3 & r4 & h'' & Hrun & _ & _ & _ & Hframe & _).
  rewrite Hrun in Hget. injection Hget as <- <-.
  apply queries_same_store;
    unfold scenes_of, frames_of, agents_of, tl_faces_of; by rewrite Hframe.
Qed.

(** X8. The dataset extracted from a scene with frame interval [(s, e)],
    [0 <= s < e <= len(frames)], has length [e - s] and the single
    cumulative size [e - s]: every flat index [0 <= i < e - s] resolves to
    scene 0 at offset [i], so that item [i] of the copy is
    [get_frame(0, i)], and the index range of its scene is [0 .. e - s). *)
Theorem get_scene_dataset_indexing h self (k : nat) (sc : scene) :
  let s := (frame_index_interval sc).1 in
  let e := (frame_index_interval sc).2 in
  scenes_of h (scenes (dataset self)) !! k = Some sc ->
  scene_typed sc = true ->
  0 <= s < e -> e <= Py.len (frames_of h (frames (dataset self))) ->
  exists self' h',
    get_scene_dataset h self (Z.of_nat k) = Ok (self', h') /\
    __len__ h' self' = e - s /\
    cumulative_sizes h' self' = [e - s] /\
    get_scene_indices h' self' 0 = Ok (Py.arange 0 (e - s)) /\
    forall i, 0 <= i < e - s ->
      resolve h' self' i = Ok (0, i) /\
      __getitem__ h' self' i = get_frame h' self' 0 i None.
Proof.
  intros s e Hk Hsct Hse He.
  set (window := Py.slice (frames_of h (frames (dataset self))) s e).
  assert (Py.len window = e - s) as Hlen by (apply slice_length; lia).
  destruct window as [|f0 w] eqn:Hw; [unfold Py.len in Hlen; simpl in Hlen; lia|].
  rewrite <- Hw in *.
  assert (Py.getitem window 0 = Ok f0) as Hf0 by (by rewrite Hw).
  destruct (getitem_last_of_first _ _ Hf0) as (fl & Hfl & _).
  assert (Py.getitem (Py.slice (scenes_of h (scenes (dataset self)))
                        (Z.of_nat k) (Z.of_nat k + 1)) 0 = Ok sc) as Hsc
    by (by rewrite (slice_singleton _ _ _ Hk)).
  destruct (get_scene_dataset_run h self (Z.of_nat k) sc f0 fl Hsc Hf0 Hfl)
    as (r1 & r2 & r3 & r4 & h' & Hrun & _ & _ & _ & _ & Hs' & Hf' & _).
  fold s e window in Hs', Hf'.
  assert (int64 e) as Hie.
  { unfold scene_typed, interval_typed in Hsct.
    apply andb_true_iff in Hsct as [_ Hsct]. by apply int64b_spec. }
  assert (scenes_of h' r1 = [Scene (0, e - s) (scene_rest sc)]) as Hscene.
  { rewrite Hs', (slice_singleton _ _ _ Hk). cbn [fmap list_fmap].
    unfold rebase_frames, isub_interval. fold s e.
    rewrite Z.sub_diag, wrap64_sub by (done || lia). done. }
  eexists _, h'. split; [exact Hrun|].
  assert (__len__ h' {| cfg := cfg self;
                        dataset := {| scenes := r1; frames := r2;
                                      agents := r3; tl_faces := r4 |};
                        rasterizer := rasterizer self;
                        perturbation := perturbation self |} = e - s) as Hlen'.
  { unfold __len__. cbn [dataset frames]. rewrite Hf'.
    unfold Py.len in *. by rewrite !length_fmap. }
  assert (cumulative_sizes h' {| cfg := cfg self;
                        dataset := {| scenes := r1; frames := r2;
                                      agents := r3; tl_faces := r4 |};
                        rasterizer := rasterizer self;
                        perturbation := perturbation self |} = [e - s]) as Hcum.
  { unfold cumulative_sizes. cbn [dataset scenes]. by rewrite Hscene. }
  split; [done|]. split; [done|]. split.
  - unfold get_scene_indices. cbn [dataset scenes]. by rewrite Hscene.
  - intros i Hi.
    assert (resolve h' {| cfg := cfg self;
                        dataset := {| scenes := r1; frames := r2;
                                      agents := r3; tl_faces := r4 |};
                        rasterizer := rasterizer self;
                        perturbation := perturbation self |} i = Ok (0, i)) as Hres.
    { rewrite (resolve_at_scene h' _ O (e - s) i); rewrite ?Hcum.
      - cbn [scene_start]. by rewrite Z.sub_0_r.
      - repeat constructor.
      - done.
      - lia.
      - cbn [scene_start]. lia. }
    split; [done|]. unfold __getitem__. by rewrite Hres.
Qed.

End ExtractionMore.

(** * Frames, continued *)

Section FramesMore.
Context `{Collaborators}.
Implicit Types (h : heap) (self : EgoDataset) (data : Sample).





(** X11. The image of an example is the sample's image with the
    channel axis first: for a sample image of [hgt] rows, [wid] columns and
    [ch] channels, the result has [ch] planes of [hgt] rows of [wid]
    entries, and entry [(c, i, j)] is channel [c] of pixel [(i, j)]. *)
Theorem transpose_201_channel_first (hgt wid ch : nat) (img : list (list (list Q))) :
  rectangular hgt wid ch img -> (0 < hgt)%nat -> (0 < wid)%nat ->
  rectangular ch hgt wid (transpose_201 img) /\
  forall (c i j : nat) row px v,
    img !! i = Some row -> row !! j = Some px -> px !! c = Some v ->
    exists plane line,
      transpose_201 img !! c = Some plane /\
      plane !! i = Some line /\ line !! j = Some v.
Proof.
  intros [Hh Hrows] Hhgt Hwid. rewrite Forall_forall in Hrows.
  destruct img as [|row0 img']; [simpl in Hh; lia|].
  destruct (Hrows row0 ltac:(left)) as [Hw0 Hpx0].
  destruct row0 as [|px0 row0']; [simpl in Hw0; lia|].
  assert (length px0 = ch) as Hch
    by (rewrite Forall_forall in Hpx0; apply Hpx0; left).
  unfold transpose_201. rewrite Hch.
  set (img := (px0 :: row0') :: img') in *.
  split.
  - split; [by rewrite length_fmap, length_seq|].
    apply Forall_fmap, Forall_forall. intros c _. cbn [compose].
    split; [by rewrite length_fmap|].
    apply Forall_fmap, Forall_forall. intros row Hrow. cbn [compose].
    rewrite length_fmap. by destruct (Hrows row Hrow).
  - intros c i j row px v Hi Hj Hc.
    assert (length px = ch) as Hpx.
    { destruct (Hrows row) as [_ Hpxs]; [by eapply list_elem_of_lookup_2|].
      rewrite Forall_forall in Hpxs. apply Hpxs. by eapply list_elem_of_lookup_2. }
    pose proof (lookup_lt_Some _ _ _ Hc) as Hlt.
    eexists _, _. split; [|split].
    + rewrite list_lookup_fmap, lookup_seq_lt by lia. reflexivity.
    + rewrite list_lookup_fmap, Hi. reflexivity.
    + rewrite list_lookup_fmap, Hj. cbn [fmap option_fmap option_map].
      f_equal. by apply nth_lookup_Some.
Qed.

(** X12. [get_frame] does not check [state_index] against the scene:
    for a negative [state_index] that stays inside the frame array, the
    timestamp is read at [frame_interval[0] + state_index], a frame that
    lies before the window handed to the sample generator. *)
Theorem get_frame_negative_state_timestamp h self (scene_index state_index : Z)
    (track_id : option Z) (ex : Example) (sc : scene) :
  get_frame h self scene_index state_index track_id = Ok ex ->
  Py.getitem (scenes_of h (scenes (dataset self))) scene_index = Ok sc ->
  state_index < 0 -> 0 <= (frame_index_interval sc).1 + state_index ->
  exists fr,
    frames_of h (frames (dataset self))
      !! Z.to_nat ((frame_index_interval sc).1 + state_index) = Some fr /\
    out_timestamp ex = timestamp fr /\
    (Z.to_nat ((frame_index_interval sc).1 + state_index)
     < Z.to_nat (frame_index_interval sc).1)%nat.
Proof.
  intros Hget Hsc Hneg Hin. unfold get_frame in Hget.
  rewrite Hsc in Hget. cbn [mbind result_bind] in Hget.
  apply bind_Ok in Hget as (data & _ & Hget).
  apply bind_Ok in Hget as (targets & _ & Hget).
  apply bind_Ok in Hget as (fr & Hfr & Hget).
  apply bind_Ok in Hget as (tid & _ & Hget).
  injection Hget as <-. exists fr. cbn [out_timestamp].
  split; [|split; [done|lia]].
  destruct (Z.lt_ge_cases ((frame_index_interval sc).1 + state_index)
              (Py.len (frames_of h (frames (dataset self))))) as [Hlt|Hge].
  - destruct (getitem_nonneg (frames_of h (frames (dataset self)))
                ((frame_index_interval sc).1 + state_index)) as (fr' & Hfr' & Hok);
      [lia|].
    rewrite Hok in Hfr. by injection Hfr as ->.
  - rewrite getitem_out_of_range in Hfr by lia. done.
Qed.

End FramesMore.

(** * The two-scene store, continued *)

Lemma toy_tiles : tiles 0 toy_scenes.
Proof. simpl. repeat split; lia. Qed.

Lemma toy_allocated : allocated (H:=toy) toy_heap toy_store.
Proof. repeat split; apply elem_of_dom; eexists; reflexivity. Qed.

Lemma getitem_past_end_witness :
  (exists off, resolve toy_heap (toy_dataset None) 5 = Ok (2, off)) /\
  __getitem__ toy_heap (toy_dataset None) 5 = Err IndexError.
Proof.
  apply (getitem_past_end (H:=toy) toy_heap (toy_dataset None) 5).
  - lia.
  - rewrite toy_cumulative_sizes. repeat constructor; lia.
Defined.

Lemma resolve_inside_scene_witness :
  exists (k : nat) sc off,
    resolve toy_heap (toy_dataset None) 4 = Ok (Z.of_nat k, off) /\
    toy_scenes !! k = Some sc /\
    (frame_index_interval sc).1 + off = 4 /\
    0 <= off < (frame_index_interval sc).2 - (frame_index_interval sc).1.
Proof.
  apply (resolve_inside_scene (H:=toy) toy_heap (toy_dataset None) 4 5).
  - rewrite toy_cumulative_sizes. repeat constructor; lia.
  - exact toy_scenes_contiguous.
  - reflexivity.
  - lia.
Defined.


Lemma scene_indices_resolve_witness :
  exists l,
    get_scene_indices toy_heap (toy_dataset None) 1 = Ok l /\
    forall x, x ∈ l ->
      resolve toy_heap (toy_dataset None) x = Ok (1, x - 3) /\
      __getitem__ toy_heap (toy_dataset None) x
      = get_frame toy_heap (toy_dataset None) 1 (x - 3) None.
Proof.
  apply (scene_indices_resolve (H:=toy) toy_heap (toy_dataset None) 1 (Scene (3, 5) [8])).
  - rewrite toy_cumulative_sizes. repeat constructor; lia.
  - exact toy_scenes_contiguous.
  - reflexivity.
  - simpl. lia.
Defined.

Lemma scene_indices_partition_witness :
  exists ls,
    traverse (get_scene_indices toy_heap (toy_dataset None)) [0; 1] = Ok ls /\
    concat ls = Py.arange 0 5.
Proof.
  apply (scene_indices_partition (H:=toy) toy_heap (toy_dataset None)).
  exact toy_tiles.
Defined.

Lemma get_scene_dataset_negative_witness :
  get_scene_dataset toy_heap (toy_dataset None) (-1) = Err IndexError /\
  get_scene_dataset toy_heap (toy_dataset None) (-2)
  = get_scene_dataset toy_heap (toy_dataset None) 0.
Proof.
  destruct (get_scene_dataset_negative (H:=toy) toy_heap (toy_dataset None) (-2))
    as [Hlast Hrel].
  split; [exact Hlast|]. apply Hrel. split; [discriminate|reflexivity].
Defined.

Lemma get_scene_dataset_index_errors_witness :
  get_scene_dataset toy_heap (toy_dataset None) 2 = Err IndexError /\
  get_scene_dataset empty_scene_heap (toy_dataset None) (Z.of_nat 0) = Err IndexError.
Proof.
  destruct (get_scene_dataset_index_errors (H:=toy) toy_heap (toy_dataset None))
    as [Hrange _].
  destruct (get_scene_dataset_index_errors (H:=toy) empty_scene_heap (toy_dataset None))
    as [_ Hempty].
  split.
  - apply Hrange. left. discriminate.
  - apply (Hempty O (Scene (2, 2) [9])).
    + reflexivity.
    + split; discriminate.
Defined.

Lemma get_scene_dataset_source_queries_witness :
  __len__ toy_copy.2 (toy_dataset None) = __len__ toy_heap (toy_dataset None) /\
  __getitem__ toy_copy.2 (toy_dataset None) 4
  = __getitem__ toy_heap (toy_dataset None) 4.
Proof.
  destruct (get_scene_dataset_source_queries (H:=toy) toy_heap (toy_dataset None) 1
              toy_copy.1 toy_copy.2 toy_get_scene_dataset toy_allocated)
    as (Hlen & _ & Hitem & _).
  split; [exact Hlen | exact (Hitem 4)].
Defined.

Lemma get_scene_dataset_indexing_witness :
  exists self' h',
    get_scene_dataset toy_heap (toy_dataset None) 1 = Ok (self', h') /\
    __len__ h' self' = 2 /\
    cumulative_sizes h' self' = [2] /\
    get_scene_indices h' self' 0 = Ok (Py.arange 0 2) /\
    forall i, 0 <= i < 2 ->
      resolve h' self' i = Ok (0, i) /\
      __getitem__ h' self' i = get_frame h' self' 0 i None.
Proof.
  apply (get_scene_dataset_indexing (H:=toy) toy_heap (toy_dataset None) 1
           (Scene (3, 5) [8])).
  - reflexivity.
  - reflexivity.
  - split; [discriminate|reflexivity].
  - discriminate.
Defined.



Lemma get_frame_negative_state_timestamp_witness :
  exists ex fr,
    get_frame toy_heap (toy_dataset (Some false)) 1 (-1) None = Ok ex /\
    toy_frames !! 2%nat = Some fr /\
    out_timestamp ex = timestamp fr /\ timestamp fr = 102.
Proof.
  eexists.
  destruct (get_frame_negative_state_timestamp (H:=toy) toy_heap
              (toy_dataset (Some false)) 1 (-1) None
              {| out_image := [[[104%Q]]; [[0%Q]]];
                 out_target_positions := Mat [[1; 2]; [3; 4]]%Q;
                 out_target_yaws := Vec [0; 0]%Q;
                 out_target_availabilities := Vec [1; 1]%Q;
                 out_history_positions := Mat [[0; 0]]%Q;
                 out_history_yaws := Vec [0%Q];
                 out_history_availabilities := Vec [1%Q];
                 out_world_to_image := identity3;
                 out_track_id := -1;
                 out_timestamp := 102;
                 out_centroid := Vec [16; 17]%Q;
                 out_yaw := 0%Q;
                 out_extent := Vec [] |}
              (Scene (3, 5) [8]))
    as (fr & Hfr & Hts & _).
  - vm_compute. reflexivity.
  - reflexivity.
  - lia.
  - discriminate.
  - exists fr. split; [vm_compute; reflexivity|]. split; [exact Hfr|].
    split; [exact Hts|]. by rewrite <- Hts.
Defined.

Lemma transpose_201_channel_first_witness :
  rectangular 2 2 1 (transpose_201 [[[1; 2]%Q]; [[3; 4]%Q]]) /\
  transpose_201 [[[1; 2]%Q]; [[3; 4]%Q]] = [[[1%Q]; [3%Q]]; [[2%Q]; [4%Q]]].
Proof.
  destruct (transpose_201_channel_first 2 1 2 [[[1; 2]%Q]; [[3; 4]%Q]]) as [Hrect _].
  - split; [reflexivity|]. repeat constructor.
  - lia.
  - lia.
  - split; [exact Hrect | reflexivity].
Defined.
